(** * Task management API: soft delete, access control and notifications

    A shallow embedding of the [tasks] application:
    - [tasks/models.py]        the [Task] model, its query set and its
                               soft-deleting [delete];
    - [tasks/serializers.py]   [TaskSerializer] (field validation, create
                               and update of a row);
    - [tasks/notifications.py] the two background jobs;
    - [tasks/views.py]         [TaskListCreateView] and [TaskDetailView],
                               run through the generic view methods they
                               inherit (list, create, retrieve, update,
                               destroy).

    Conventions.  A timestamp is a [Z] (microseconds); [timezone.now()] is
    an explicit argument [now].  A foreign key is the referenced row's
    primary key.  The database, the job queue and the mail outbox form one
    state [DB] threaded through a state-and-exception monad whose exceptions
    keep the state reached when they were raised (queries are committed one
    by one, as under the framework's default autocommit).  The account
    endpoints of [views_auth.py] touch no task row and are not modelled;
    the caller of a task endpoint is an authenticated [User]. *)

From stdpp Require Import base option list gmap strings sorting.
From Stdlib Require Import ZArith.

Local Open Scope Z_scope.

(** ** models.py *)

Module User.
Record User := mk {
  id : Z;
  username : string;
  email : string;
  is_staff : bool;
}.
End User.
Abbreviation User := User.User.

Module Task.
Definition STATUS_CHOICES : list (string * string) :=
  [ ("pending", "Pending");
    ("in_progress", "In Progress");
    ("completed", "Completed") ]%string.

Record Task := mk {
  id : Z;
  title : string;
  description : string;
  status : string;
  owner : Z;                  (* owner_id *)
  assignee : option Z;        (* assignee_id, nullable *)
  due_date : option Z;
  created_at : Z;
  updated_at : Z;
  is_deleted : bool;
  deleted_at : option Z;
}.

(** [Model.save()] of an existing row: [auto_now] refreshes [updated_at]. *)
Definition save (now : Z) (self : Task) : Task :=
  mk (id self) (title self) (description self) (status self) (owner self)
     (assignee self) (due_date self) (created_at self) now
     (is_deleted self) (deleted_at self).

(** [Task.delete]: the overridden, soft, delete. *)
Definition delete (now : Z) (self : Task) : Task :=
  save now
    (mk (id self) (title self) (description self) (status self) (owner self)
        (assignee self) (due_date self) (created_at self) (updated_at self)
        true (Some now)).
End Task.
Abbreviation Task := Task.Task.

(** A query set is the finite map of the rows it selects, keyed by primary
  key. *)
Module TaskQuerySet.
Definition not_deleted (self : gmap Z Task) : gmap Z Task :=
  filter (λ kv, Task.is_deleted kv.2 = false) self.

Definition deleted (self : gmap Z Task) : gmap Z Task :=
  filter (λ kv, Task.is_deleted kv.2 = true) self.
End TaskQuerySet.

(** Ordering of a query set.  A term is a column and a direction ([true]
    for a leading minus: descending); rows are compared term by term.  A
    null [due_date] sorts before every date (as in SQLite). *)
Inductive OrderingField :=
  | by_due_date
  | by_created_at
  | by_updated_at.

Definition compare_null_first (a b : option Z) : comparison :=
  match a, b with
  | None, None => Eq
  | None, Some _ => Lt
  | Some _, None => Gt
  | Some x, Some y => x ?= y
  end.

Definition compare_field (f : OrderingField) (t1 t2 : Task) : comparison :=
  match f with
  | by_due_date => compare_null_first (Task.due_date t1) (Task.due_date t2)
  | by_created_at => Task.created_at t1 ?= Task.created_at t2
  | by_updated_at => Task.updated_at t1 ?= Task.updated_at t2
  end.

Fixpoint compare_terms (terms : list (bool * OrderingField)) (t1 t2 : Task)
    : comparison :=
  match terms with
  | [] => Eq
  | (desc, f) :: terms' =>
      match (if desc then CompOpp (compare_field f t1 t2)
             else compare_field f t1 t2) with
      | Eq => compare_terms terms' t1 t2
      | c => c
      end
  end.

Definition ordered (terms : list (bool * OrderingField)) (t1 t2 : Task) : Prop :=
  compare_terms terms t1 t2 ≠ Gt.

#[global] Instance ordered_dec terms : RelDecision (ordered terms).
Proof. intros t1 t2. unfold ordered. solve_decision. Defined.

(** [Meta.ordering = ["-created_at"]]. *)
Definition Meta_ordering : list (bool * OrderingField) := [(true, by_created_at)].

(** Evaluating a query set under an ordering gives its rows in that order. *)
Definition order_by (terms : list (bool * OrderingField)) (q : gmap Z Task)
    : list Task :=
  merge_sort (ordered terms) ((map_to_list q).*2).

(** ** The state: tables, job queue, outbox *)

(** A piece of a formatted string; a datetime is kept unrendered, its
    rendering depends on the active time zone. *)
Inductive Piece :=
  | Str (s : string)
  | Datetime (d : Z).

Record Mail := mkMail {
  subject : string;
  message : list Piece;
  from_email : string;
  recipient_list : list string;
}.

Record DB := mkDB {
  auth_user : gmap Z User;          (* User.objects *)
  tm_tasks : gmap Z Task;           (* Task.objects, table "tm_tasks" *)
  tm_tasks_id_seq : Z;              (* last primary key handed out *)
  celery : list (Z * string);       (* queued send_task_notification jobs *)
  outbox : list Mail;               (* what send_mail has sent *)
  DEFAULT_FROM_EMAIL : string;      (* settings.DEFAULT_FROM_EMAIL *)
}.

Definition set_tasks (f : gmap Z Task → gmap Z Task) (db : DB) : DB :=
  mkDB (auth_user db) (f (tm_tasks db)) (tm_tasks_id_seq db) (celery db)
       (outbox db) (DEFAULT_FROM_EMAIL db).

Definition set_seq (n : Z) (db : DB) : DB :=
  mkDB (auth_user db) (tm_tasks db) n (celery db) (outbox db)
       (DEFAULT_FROM_EMAIL db).

Definition set_celery (f : list (Z * string) → list (Z * string)) (db : DB) : DB :=
  mkDB (auth_user db) (tm_tasks db) (tm_tasks_id_seq db) (f (celery db))
       (outbox db) (DEFAULT_FROM_EMAIL db).

Definition set_outbox (f : list Mail → list Mail) (db : DB) : DB :=
  mkDB (auth_user db) (tm_tasks db) (tm_tasks_id_seq db) (celery db)
       (f (outbox db)) (DEFAULT_FROM_EMAIL db).

(** ** Exceptions and the monad of a request *)

Inductive Exn :=
  | Http404             (* NotFound, 404 *)
  | PermissionDenied    (* Forbidden, 403 *)
  | ValidationError     (* 400 *)
  | IntegrityError      (* the database refuses a duplicate key *)
  | DoesNotExist        (* Task.objects.get without a row *)
  | AttributeError.     (* attribute access on None *)

Inductive Res (A : Type) :=
  | Ok (a : A) (db : DB)
  | Raise (e : Exn) (db : DB).
Arguments Ok {A} a db.
Arguments Raise {A} e db.

Definition M (A : Type) : Type := DB → Res A.

#[global] Instance M_ret : MRet M := λ A a db, Ok a db.
#[global] Instance M_bind : MBind M := λ A B k m db,
  match m db with
  | Ok a db' => k a db'
  | Raise e db' => Raise e db'
  end.

Definition raise {A} (e : Exn) : M A := λ db, Raise e db.
Definition gets {A} (f : DB → A) : M A := λ db, Ok (f db) db.
Definition modify (f : DB → DB) : M unit := λ db, Ok tt (f db).

Definition state_of {A} (r : Res A) : DB :=
  match r with Ok _ db => db | Raise _ db => db end.

Definition succeeded {A} (r : Res A) : bool :=
  match r with Ok _ _ => true | Raise _ _ => false end.

(** ** serializers.py: TaskSerializer *)

Module TaskSerializer.

(** A member of the request body: missing, JSON null, or a value. *)
Inductive Field (A : Type) :=
  | Absent
  | Null
  | Value (a : A).
Arguments Absent {A}.
Arguments Null {A}.
Arguments Value {A} a.

(** The writable members of [Meta.fields]; [id], [owner], [created_at] and
    [updated_at] are read-only and whatever the body holds for them is
    dropped, [is_deleted] and [deleted_at] are not fields at all. *)
Record Data := mkData {
  title : Field string;
  description : Field string;
  status : Field string;
  assignee : Field Z;
  due_date : Field Z;
}.

(** [validated_data]: a member is [None] when the body did not supply it. *)
Record Validated := mkValidated {
  v_title : option string;
  v_description : option string;
  v_status : option string;
  v_assignee : option (option Z);
  v_due_date : option (option Z);
}.

(** What [str.isspace] accepts among the first 128 code points. *)
Definition isspace (c : Ascii.ascii) : bool :=
  let n := Ascii.N_of_ascii c in
  ((9 <=? n) && (n <=? 13) || (28 <=? n) && (n <=? 32))%N.

Fixpoint lstrip (s : string) : string :=
  match s with
  | String c s' => if isspace c then lstrip s' else s
  | EmptyString => EmptyString
  end.

Definition strip (s : string) : string :=
  String.rev (lstrip (String.rev (lstrip s))).

Fixpoint has_null_character (s : string) : bool :=
  match s with
  | String c s' => (Ascii.N_of_ascii c =? 0)%N || has_null_character s'
  | EmptyString => false
  end.

(** The result of validating one field: [None] is a validation error,
    [Some None] a field left out of [validated_data]. *)

(** [CharField(required=True, allow_blank=False, trim_whitespace=True)],
    with [max_length] when the model field has one (a length counts bytes,
    which is the number of characters for ASCII text). *)
Definition char_field (partial : bool) (max_length : option nat)
    (f : Field string) : option (option string) :=
  match f with
  | Absent => if partial then Some None else None
  | Null => None
  | Value s =>
      let s := strip s in
      if decide (s = EmptyString) then None
      else if has_null_character s then None
      else match max_length with
           | Some n => if (n <? String.length s)%nat then None else Some (Some s)
           | None => Some (Some s)
           end
  end.

(** [ChoiceField(choices=Task.STATUS_CHOICES, required=False)]. *)
Definition choice_field (f : Field string) : option (option string) :=
  match f with
  | Absent => Some None
  | Null => None
  | Value s => if decide (s ∈ Task.STATUS_CHOICES.*1) then Some (Some s) else None
  end.

(** [PrimaryKeyRelatedField(queryset=User.objects.all(), required=False,
    allow_null=True)]. *)
Definition primary_key_related_field (queryset : gmap Z User)
    (f : Field Z) : option (option (option Z)) :=
  match f with
  | Absent => Some None
  | Null => Some (Some None)
  | Value pk =>
      match queryset !! pk with
      | Some _ => Some (Some (Some pk))
      | None => None
      end
  end.

(** [DateTimeField(required=False, allow_null=True)]. *)
Definition date_time_field (f : Field Z) : option (option (option Z)) :=
  match f with
  | Absent => Some None
  | Null => Some (Some None)
  | Value d => Some (Some (Some d))
  end.

(** [is_valid]: every field is validated; one error fails the whole. *)
Definition run_validation (users : gmap Z User) (partial : bool)
    (data : Data) : option Validated :=
  t ← char_field partial (Some 255%nat) (title data);
  d ← char_field partial None (description data);
  s ← choice_field (status data);
  a ← primary_key_related_field users (assignee data);
  dd ← date_time_field (due_date data);
  Some (mkValidated t d s a dd).

(** The row of a new task: model defaults for the members left out, both
    timestamps at [now], the soft-delete pair at its defaults. *)
Definition instantiate (now : Z) (pk owner : Z) (v : Validated) : Task :=
  Task.mk pk
    (default EmptyString (v_title v))
    (default EmptyString (v_description v))
    (default "pending"%string (v_status v))
    owner
    (default None (v_assignee v))
    (default None (v_due_date v))
    now now false None.

(** [ModelSerializer.create]: [Task.objects.create] on the validated
    members and the [owner] given to [save]; the database hands out the key
    and refuses one already in the table. *)
Definition create (now : Z) (owner : Z) (v : Validated) : M Task :=
  pk ← gets (λ db, tm_tasks_id_seq db + 1);
  modify (set_seq pk);;
  rows ← gets tm_tasks;
  match rows !! pk with
  | Some _ => raise IntegrityError
  | None =>
    let task := instantiate now pk owner v in
    modify (set_tasks <[pk := task]>);;
    mret task
  end.

(** The [setattr] of each validated member on the instance. *)
Definition setattrs (instance : Task) (v : Validated) : Task :=
  Task.mk (Task.id instance)
    (default (Task.title instance) (v_title v))
    (default (Task.description instance) (v_description v))
    (default (Task.status instance) (v_status v))
    (Task.owner instance)
    (default (Task.assignee instance) (v_assignee v))
    (default (Task.due_date instance) (v_due_date v))
    (Task.created_at instance)
    (Task.updated_at instance)
    (Task.is_deleted instance)
    (Task.deleted_at instance).

(** [ModelSerializer.update]: [setattr] for each validated member, then
    [instance.save()]. *)
Definition update (now : Z) (instance : Task) (v : Validated) : M Task :=
  let task := Task.save now (setattrs instance v) in
  modify (set_tasks <[Task.id task := task]>);;
  mret task.

End TaskSerializer.

(** ** notifications.py *)

Module notifications.

Definition send_mail (subject : string) (message : list Piece)
    (from_email : string) (recipient_list : list string) : M unit :=
  modify (set_outbox (λ o, o ++ [mkMail subject message from_email recipient_list])).

(** [send_task_notification.delay(task_id, action)]: the job is queued for a
    worker; the request goes on. *)
Definition delay (task_id : Z) (action : string) : M unit :=
  modify (set_celery (λ q, q ++ [(task_id, action)])).

Definition quote : string := String (Ascii.ascii_of_nat 34) EmptyString.

(** [task.assignee.email]: fails on a null assignee. *)
Definition assignee_email (task : Task) : M string :=
  match Task.assignee task with
  | None => raise AttributeError
  | Some uid =>
      users ← gets auth_user;
      match users !! uid with
      | Some u => mret (User.email u)
      | None => raise DoesNotExist
      end
  end.

Definition send_task_notification (task_id : Z) (action : string) : M unit :=
  rows ← gets tm_tasks;
  match rows !! task_id with
  | None => raise DoesNotExist
  | Some task =>
      let subject := "Task " +:+ action +:+ ": " +:+ Task.title task in
      let message :=
        [Str ("Task " +:+ quote +:+ Task.title task +:+ quote
              +:+ " has been " +:+ action +:+ ".")] in
      sender ← gets DEFAULT_FROM_EMAIL;
      to ← assignee_email task;
      send_mail subject message sender [to]
  end.

Definition timedelta_days (days : Z) : Z := days * 86400000000.

(** The [filter(due_date__lte=..., status="pending")] of the reminder job;
    a null [due_date] matches no comparison. *)
Definition due_soon (bound : Z) (task : Task) : bool :=
  match Task.due_date task with
  | Some d => (d <=? bound) && bool_decide (Task.status task = "pending")
  | None => false
  end.

Fixpoint for_each {A} (l : list A) (body : A → M unit) : M unit :=
  match l with
  | [] => mret tt
  | x :: l' => body x;; for_each l' body
  end.

Definition send_due_date_reminder (now : Z) : M unit :=
  rows ← gets tm_tasks;
  let tasks :=
    order_by Meta_ordering
      (filter (λ kv, due_soon (now + timedelta_days 1) kv.2 = true) rows) in
  for_each tasks (λ task,
    let subject :=
      "Reminder: Task " +:+ quote +:+ Task.title task +:+ quote
      +:+ " is due soon" in
    let message :=
      [Str ("This is a reminder that the task " +:+ quote +:+ Task.title task
            +:+ quote +:+ " is due on ");
       match Task.due_date task with
       | Some d => Datetime d
       | None => Str "None"
       end;
       Str "."] in
    sender ← gets DEFAULT_FROM_EMAIL;
    to ← assignee_email task;
    send_mail subject message sender [to]).

End notifications.

(** ** views.py *)

(** [get_object_or_404(queryset, pk=pk)] of the generic views. *)
Definition get_object (get_queryset : M (gmap Z Task)) (pk : Z) : M Task :=
  queryset ← get_queryset;
  match queryset !! pk with
  | Some task => mret task
  | None => raise Http404
  end.

Module TaskListCreateView.

(** The query string of [GET /tasks/]: the four [filterset_fields] and the
    ordering terms that name one of the [ordering_fields] (other terms and
    other parameters are dropped by the backends). *)
Record Query := mkQuery {
  owner : option Z;
  status : option string;
  assignee : option Z;
  due_date : option Z;
  ordering : list (bool * OrderingField);
}.

Definition get_queryset : M (gmap Z Task) :=
  gets (λ db, TaskQuerySet.not_deleted (tm_tasks db)).

(** One exact-match filter; an absent parameter filters nothing. *)
Definition exact {A} `{EqDecision A} (param : option A) (column : Task → A)
    (queryset : gmap Z Task) : gmap Z Task :=
  match param with
  | Some v => filter (λ kv, column kv.2 = v) queryset
  | None => queryset
  end.

(** [DjangoFilterBackend]: a value that is not a choice of its filter (a key
    of no user, a status outside the choices) is a validation error. *)
Definition django_filter_backend (q : Query) (queryset : gmap Z Task)
    : M (gmap Z Task) :=
  users ← gets auth_user;
  let is_user (p : option Z) : bool :=
    match p with Some pk => bool_decide (is_Some (users !! pk)) | None => true end in
  let is_status (p : option string) : bool :=
    match p with
    | Some s => bool_decide (s ∈ Task.STATUS_CHOICES.*1)
    | None => true
    end in
  if is_user (owner q) && is_status (status q) && is_user (assignee q) then
    mret (exact (owner q) Task.owner
         (exact (status q) Task.status
         (exact (Some <$> assignee q) Task.assignee
         (exact (Some <$> due_date q) Task.due_date queryset))))
  else raise ValidationError.

(** [OrderingFilter]: the requested terms, or the model's ordering. *)
Definition ordering_filter (q : Query) (queryset : gmap Z Task) : list Task :=
  match ordering q with
  | [] => order_by Meta_ordering queryset
  | terms => order_by terms queryset
  end.

(** [ListModelMixin.list]. *)
Definition list (user : User) (q : Query) : M (list Task) :=
  queryset ← get_queryset;
  queryset ← django_filter_backend q queryset;
  mret (ordering_filter q queryset).

(** [perform_create]; the value returned is [serializer.instance], which
    the response renders. *)
Definition perform_create (now : Z) (user : User)
    (serializer : TaskSerializer.Validated) : M Task :=
  task ← TaskSerializer.create now (User.id user) serializer;
  match Task.assignee task with
  | Some _ => notifications.delay (Task.id task) "assigned";; mret task
  | None => mret task
  end.

(** [CreateModelMixin.create]. *)
Definition create (now : Z) (user : User) (data : TaskSerializer.Data) : M Task :=
  users ← gets auth_user;
  match TaskSerializer.run_validation users false data with
  | None => raise ValidationError
  | Some serializer => perform_create now user serializer
  end.

End TaskListCreateView.

Module TaskDetailView.

Definition get_queryset : M (gmap Z Task) :=
  gets (λ db, TaskQuerySet.not_deleted (tm_tasks db)).

(** [RetrieveModelMixin.retrieve]. *)
Definition retrieve (user : User) (pk : Z) : M Task :=
  get_object get_queryset pk.

(** [perform_update]; [instance] is the row the serializer was built on,
    [pk] the key of the URL that [self.get_object()] reads again. *)
Definition perform_update (now : Z) (user : User) (pk : Z) (instance : Task)
    (serializer : TaskSerializer.Validated) : M Task :=
  task ← get_object get_queryset pk;
  if bool_decide (Task.owner task ≠ User.id user) && negb (User.is_staff user)
  then raise PermissionDenied
  else
    let old_assignee := Task.assignee task in
    task ← TaskSerializer.update now instance serializer;
    notifications.delay (Task.id task) "updated";;
    match Task.assignee task with
    | None => mret task
    | Some new_id =>
        match old_assignee with
        | None => raise AttributeError
        | Some old_id =>
            if bool_decide (old_id ≠ new_id)
            then notifications.delay (Task.id task) "assigned";; mret task
            else mret task
        end
    end.

(** [UpdateModelMixin.update] ([partial] for PATCH). *)
Definition update (now : Z) (user : User) (pk : Z) (partial : bool)
    (data : TaskSerializer.Data) : M Task :=
  instance ← get_object get_queryset pk;
  users ← gets auth_user;
  match TaskSerializer.run_validation users partial data with
  | None => raise ValidationError
  | Some serializer => perform_update now user pk instance serializer
  end.

Definition perform_destroy (now : Z) (user : User) (instance : Task) : M unit :=
  if bool_decide (Task.owner instance ≠ User.id user) && negb (User.is_staff user)
  then raise PermissionDenied
  else
    let instance := Task.delete now instance in
    modify (set_tasks <[Task.id instance := instance]>).

(** [DestroyModelMixin.destroy]. *)
Definition destroy (now : Z) (user : User) (pk : Z) : M unit :=
  instance ← get_object get_queryset pk;
  perform_destroy now user instance.

End TaskDetailView.

(** ** Runs of the system *)

Inductive Request :=
  | List (q : TaskListCreateView.Query)
  | Create (data : TaskSerializer.Data)
  | Retrieve (pk : Z)
  | Update (pk : Z) (partial : bool) (data : TaskSerializer.Data)
  | Delete (pk : Z).

Inductive Event :=
  | Http (now : Z) (user : User) (r : Request)   (* a request of [user] *)
  | Worker                                       (* the next queued job runs *)
  | Beat (now : Z).                              (* the reminder job runs *)

(** The state a request leaves behind, whatever it answers. *)
Definition handle (now : Z) (user : User) (r : Request) (db : DB) : DB :=
  match r with
  | List q => state_of (TaskListCreateView.list user q db)
  | Create data => state_of (TaskListCreateView.create now user data db)
  | Retrieve pk => state_of (TaskDetailView.retrieve user pk db)
  | Update pk partial data =>
      state_of (TaskDetailView.update now user pk partial data db)
  | Delete pk => state_of (TaskDetailView.destroy now user pk db)
  end.

Definition exec (e : Event) (db : DB) : DB :=
  match e with
  | Http now user r => handle now user r db
  | Worker =>
      match celery db with
      | [] => db
      | (task_id, action) :: rest =>
          state_of (notifications.send_task_notification task_id action
                      (set_celery (λ _, rest) db))
      end
  | Beat now => state_of (notifications.send_due_date_reminder now db)
  end.

Definition run (es : list Event) (db : DB) : DB :=
  foldl (λ db e, exec e db) db es.

(** A fresh installation: users, no task. *)
Definition initial (users : gmap Z User) (sender : string) : DB :=
  mkDB users ∅ 0 [] [] sender.

Definition reachable (db : DB) : Prop :=
  ∃ users sender es, db = run es (initial users sender).

(** The soft-delete marker pair agrees on every stored row. *)
Definition marker_consistent (db : DB) : Prop :=
  ∀ pk t, tm_tasks db !! pk = Some t →
    Task.is_deleted t = true ↔ is_Some (Task.deleted_at t).

(** ** Vocabulary of the properties *)

(** Rows are stored under their own primary key. *)
Definition well_keyed (db : DB) : Prop :=
  ∀ pk t, tm_tasks db !! pk = Some t → Task.id t = pk.

(** The caller may mutate the task: [caller.id == task.owner.id] or the
    caller is an administrator. *)
Definition permitted (user : User) (t : Task) : Prop :=
  Task.owner t = User.id user ∨ User.is_staff user = true.

(** The row an update writes: the validated members over the stored row. *)
Definition merged (now : Z) (t : Task) (v : TaskSerializer.Validated) : Task :=
  Task.save now (TaskSerializer.setattrs t v).

(** Two states with the same tables, queue and settings. *)
Definition same_but_outbox (db db' : DB) : Prop :=
  auth_user db' = auth_user db ∧ tm_tasks db' = tm_tasks db ∧
  tm_tasks_id_seq db' = tm_tasks_id_seq db ∧ celery db' = celery db ∧
  DEFAULT_FROM_EMAIL db' = DEFAULT_FROM_EMAIL db.

(** How one event changes the task table. *)
Inductive row_step (rows : gmap Z Task) : gmap Z Task → Prop :=
  | row_none : row_step rows rows
  | row_insert now pk owner v :
      rows !! pk = None →
      row_step rows (<[pk := TaskSerializer.instantiate now pk owner v]> rows)
  | row_update now pk t v :
      rows !! pk = Some t → Task.is_deleted t = false →
      row_step rows (<[Task.id t := merged now t v]> rows)
  | row_delete now pk t :
      rows !! pk = Some t → Task.is_deleted t = false →
      row_step rows (<[Task.id t := Task.delete now t]> rows).

(** The selection the reminder job is described to make: not deleted,
    pending, due within the next 24 hours. *)
Definition described_reminder_selection (now : Z) (t : Task) : bool :=
  negb (Task.is_deleted t)
  && bool_decide (Task.status t = "pending"%string)
  && match Task.due_date t with
     | Some d => (now <=? d) && (d <=? now + notifications.timedelta_days 1)
     | None => false
     end.

(** ** Fixtures: four users and a few tables *)

Module Fixtures.
Import TaskSerializer.

Definition alice : User := User.mk 1 "alice" "alice@example.com" false.
Definition bob : User := User.mk 2 "bob" "bob@example.com" false.
Definition carol : User := User.mk 3 "carol" "carol@example.com" false.
Definition root : User := User.mk 4 "root" "root@example.com" true.

Definition users : gmap Z User :=
  <[1 := alice]> (<[2 := bob]> (<[3 := carol]> (<[4 := root]> ∅))).

(** Alice's task "Doc", unassigned, created at time 100. *)
Definition doc : Task :=
  Task.mk 1 "Doc" "x" "pending" 1 None None 100 100 false None.

(** Alice's task "Report", assigned to Bob. *)
Definition report : Task :=
  Task.mk 2 "Report" "y" "in_progress" 1 (Some 2) None 110 110 false None.

Definition db_fresh : DB := initial users "noreply@example.com".

Definition db_doc : DB :=
  mkDB users (<[1 := doc]> ∅) 1 [] [] "noreply@example.com".

Definition db_two : DB :=
  mkDB users (<[1 := doc]> (<[2 := report]> ∅)) 2 [] [] "noreply@example.com".

Definition no_query : TaskListCreateView.Query :=
  TaskListCreateView.mkQuery None None None None [].

Definition post_doc : Data :=
  mkData (Value "Doc") (Value "x") Absent Null Absent.

Definition post_for_bob : Data :=
  mkData (Value "Report") (Value "y") (Value "in_progress") (Value 2) Absent.

Definition patch_assign_bob : Data := mkData Absent Absent Absent (Value 2) Absent.
Definition patch_assign_carol : Data := mkData Absent Absent Absent (Value 3) Absent.
Definition patch_completed : Data :=
  mkData Absent Absent (Value "completed") Absent Absent.
Definition patch_bad_status : Data := mkData Absent Absent (Value "done") Absent Absent.
Definition patch_assign_nobody : Data := mkData Absent Absent Absent (Value 99) Absent.

(** One hour and one day, in microseconds. *)
Definition hour : Z := 3600000000.
Definition day : Z := 24 * hour.

(** The reminder job's table at time [10 * day]: a task due in an hour, a
    soft-deleted task due in an hour, a task overdue by three days. *)
Definition due_in_an_hour : Task :=
  Task.mk 1 "Soon" "a" "pending" 1 (Some 2) (Some (10 * day + hour)) 100 100 false None.
Definition deleted_due_in_an_hour : Task :=
  Task.mk 2 "Gone" "b" "pending" 1 (Some 3) (Some (10 * day + hour)) 90 200 true (Some 200).
Definition overdue : Task :=
  Task.mk 3 "Late" "c" "pending" 1 (Some 1) (Some (7 * day)) 80 80 false None.

Definition db_reminders : DB :=
  mkDB users
    (<[1 := due_in_an_hour]> (<[2 := deleted_due_in_an_hour]> (<[3 := overdue]> ∅)))
    3 [] [] "noreply@example.com".

End Fixtures.

(** ** Vocabulary of the further properties *)

(** What the serializer's fields let into a row. *)
Definition row_valid (users : gmap Z User) (t : Task) : Prop :=
  Task.status t ∈ Task.STATUS_CHOICES.*1 ∧
  Task.title t ≠ EmptyString ∧
  (String.length (Task.title t) ≤ 255)%nat ∧
  TaskSerializer.has_null_character (Task.title t) = false ∧
  Task.description t ≠ EmptyString ∧
  TaskSerializer.has_null_character (Task.description t) = false ∧
  match Task.assignee t with
  | Some uid => is_Some (users !! uid)
  | None => True
  end.

(** How one event changes the task table, with the validation that let the
    written members in. *)
Inductive write_step (users : gmap Z User) (rows : gmap Z Task)
    : gmap Z Task → Prop :=
  | write_none : write_step users rows rows
  | write_insert now pk owner data v :
      rows !! pk = None →
      TaskSerializer.run_validation users false data = Some v →
      write_step users rows (<[pk := TaskSerializer.instantiate now pk owner v]> rows)
  | write_update now pk t partial data v :
      rows !! pk = Some t → Task.is_deleted t = false →
      TaskSerializer.run_validation users partial data = Some v →
      write_step users rows (<[Task.id t := merged now t v]> rows)
  | write_delete now pk t :
      rows !! pk = Some t → Task.is_deleted t = false →
      write_step users rows (<[Task.id t := Task.delete now t]> rows).

(** Every stored key has been handed out by the sequence. *)
Definition keys_below_seq (db : DB) : Prop :=
  ∀ pk t, tm_tasks db !! pk = Some t → pk ≤ tm_tasks_id_seq db.

(** The row matches every filter of the query string. *)
Definition matches (q : TaskListCreateView.Query) (t : Task) : Prop :=
  (∀ v, TaskListCreateView.owner q = Some v → Task.owner t = v) ∧
  (∀ v, TaskListCreateView.status q = Some v → Task.status t = v) ∧
  (∀ v, TaskListCreateView.assignee q = Some v → Task.assignee t = Some v) ∧
  (∀ v, TaskListCreateView.due_date q = Some v → Task.due_date t = Some v).

(** The ordering a list request ends up with. *)
Definition effective_ordering (q : TaskListCreateView.Query)
    : list (bool * OrderingField) :=
  match TaskListCreateView.ordering q with
  | [] => Meta_ordering
  | terms => terms
  end.

(** The mail of the reminder job for one task. *)
Definition reminder_mail (sender : string) (task : Task) (to : string) : Mail :=
  mkMail
    ("Reminder: Task " +:+ notifications.quote +:+ Task.title task
     +:+ notifications.quote +:+ " is due soon")
    [Str ("This is a reminder that the task " +:+ notifications.quote
          +:+ Task.title task +:+ notifications.quote +:+ " is due on ");
     match Task.due_date task with
     | Some d => Datetime d
     | None => Str "None"
     end;
     Str "."]
    sender [to].

(** The address [task.assignee.email] resolves to, if it does. *)
Definition assignee_address (users : gmap Z User) (task : Task) : option string :=
  uid ← Task.assignee task; User.email <$> users !! uid.

(** The exception a view raised, if it did. *)
Definition raised {A} (r : Res A) : option Exn :=
  match r with Ok _ _ => None | Raise e _ => Some e end.

(** The exception a request is answered with, if it is. *)
Definition refusal (now : Z) (user : User) (r : Request) (db : DB) : option Exn :=
  match r with
  | List q => raised (TaskListCreateView.list user q db)
  | Create data => raised (TaskListCreateView.create now user data db)
  | Retrieve pk => raised (TaskDetailView.retrieve user pk db)
  | Update pk partial data =>
      raised (TaskDetailView.update now user pk partial data db)
  | Delete pk => raised (TaskDetailView.destroy now user pk db)
  end.



(** Every queued job names a stored task and one of the two actions. *)
Definition jobs_stored (db : DB) : Prop :=
  ∀ task_id action, (task_id, action) ∈ celery db →
    is_Some (tm_tasks db !! task_id) ∧
    (action = "assigned"%string ∨ action = "updated"%string).

(** The mail of [send_task_notification]. *)
Definition notification_mail (sender : string) (task : Task) (action : string)
    (to : string) : Mail :=
  mkMail ("Task " +:+ action +:+ ": " +:+ Task.title task)
    [Str ("Task " +:+ notifications.quote +:+ Task.title task
          +:+ notifications.quote +:+ " has been " +:+ action +:+ ".")]
    sender [to].

(** The body of the loop of [send_due_date_reminder]. *)
Definition remind (task : Task) : M unit :=
  let subject :=
    "Reminder: Task " +:+ notifications.quote +:+ Task.title task
    +:+ notifications.quote +:+ " is due soon" in
  let message :=
    [Str ("This is a reminder that the task " +:+ notifications.quote
          +:+ Task.title task +:+ notifications.quote +:+ " is due on ");
     match Task.due_date task with
     | Some d => Datetime d
     | None => Str "None"
     end;
     Str "."] in
  sender ← gets DEFAULT_FROM_EMAIL;
  to ← notifications.assignee_email task;
  notifications.send_mail subject message sender [to].

(** The mails of the reminder job for the tasks of a list whose assignee
    resolves. *)
Definition reminder_mails (db : DB) (tasks : list Task) : list Mail :=
  omap (λ t, reminder_mail (DEFAULT_FROM_EMAIL db) t
               <$> assignee_address (auth_user db) t) tasks.

(** * Properties *)

Ltac unfold_m :=
  unfold mbind, M_bind, mret, M_ret, gets, modify, raise in *.

(** ** Equations of the views *)
Lemma lookup_not_deleted (rows : gmap Z Task) pk :
  TaskQuerySet.not_deleted rows !! pk =
    match rows !! pk with
    | Some t => if Task.is_deleted t then None else Some t
    | None => None
    end.
Proof.
  unfold TaskQuerySet.not_deleted. rewrite map_lookup_filter.
  destruct (rows !! pk) as [t|]; simpl; [|done].
  case_guard as H; simpl in *; destruct (Task.is_deleted t); done.
Qed.

Lemma get_object_eq pk db :
  get_object TaskDetailView.get_queryset pk db =
    match tm_tasks db !! pk with
    | Some t => if Task.is_deleted t then Raise Http404 db else Ok t db
    | None => Raise Http404 db
    end.
Proof.
  unfold get_object, TaskDetailView.get_queryset. unfold_m.
  rewrite lookup_not_deleted.
  destruct (tm_tasks db !! pk) as [t|]; [|done].
  by destruct (Task.is_deleted t).
Qed.

Lemma denied_iff user t :
  bool_decide (Task.owner t ≠ User.id user) && negb (User.is_staff user) = true
  ↔ ¬ permitted user t.
Proof.
  unfold permitted. rewrite andb_true_iff, bool_decide_eq_true, negb_true_iff.
  destruct (User.is_staff user); intuition congruence.
Qed.

Lemma denied_false_iff user t :
  bool_decide (Task.owner t ≠ User.id user) && negb (User.is_staff user) = false
  ↔ permitted user t.
Proof.
  unfold permitted. rewrite andb_false_iff, bool_decide_eq_false, negb_false_iff.
  destruct (decide (Task.owner t = User.id user)); destruct (User.is_staff user); intuition congruence.
Qed.

Lemma retrieve_eq user pk db :
  TaskDetailView.retrieve user pk db =
    match tm_tasks db !! pk with
    | Some t => if Task.is_deleted t then Raise Http404 db else Ok t db
    | None => Raise Http404 db
    end.
Proof. apply get_object_eq. Qed.

Lemma destroy_eq now user pk db :
  TaskDetailView.destroy now user pk db =
    match tm_tasks db !! pk with
    | Some t =>
        if Task.is_deleted t then Raise Http404 db
        else if bool_decide (Task.owner t ≠ User.id user) && negb (User.is_staff user)
        then Raise PermissionDenied db
        else Ok tt (set_tasks <[Task.id t := Task.delete now t]> db)
    | None => Raise Http404 db
    end.
Proof.
  unfold TaskDetailView.destroy. unfold mbind at 1, M_bind at 1.
  rewrite get_object_eq.
  destruct (tm_tasks db !! pk) as [t|]; [|done].
  destruct (Task.is_deleted t); [done|].
  unfold TaskDetailView.perform_destroy.
  by destruct (bool_decide _ && _).
Qed.

Lemma update_eq now user pk partial data db :
  TaskDetailView.update now user pk partial data db =
    match tm_tasks db !! pk with
    | None => Raise Http404 db
    | Some t =>
        if Task.is_deleted t then Raise Http404 db
        else match TaskSerializer.run_validation (auth_user db) partial data with
        | None => Raise ValidationError db
        | Some v =>
            if bool_decide (Task.owner t ≠ User.id user) && negb (User.is_staff user)
            then Raise PermissionDenied db
            else
              let t' := merged now t v in
              let db1 :=
                set_celery (λ q, q ++ [(Task.id t, "updated"%string)])
                  (set_tasks <[Task.id t := t']> db) in
              match Task.assignee t', Task.assignee t with
              | None, _ => Ok t' db1
              | Some _, None => Raise AttributeError db1
              | Some new_id, Some old_id =>
                  if bool_decide (old_id ≠ new_id)
                  then Ok t' (set_celery (λ q, q ++ [(Task.id t, "assigned"%string)]) db1)
                  else Ok t' db1
              end
        end
    end.
Proof.
  unfold TaskDetailView.update. unfold mbind at 1, M_bind at 1.
  rewrite get_object_eq.
  destruct (tm_tasks db !! pk) as [t|] eqn:Hpk; [|done].
  destruct (Task.is_deleted t) eqn:Hdel; [done|].
  unfold mbind at 1, M_bind at 1, gets at 1.
  destruct (TaskSerializer.run_validation _ _ _) as [v|]; [|done].
  unfold TaskDetailView.perform_update. unfold mbind at 1, M_bind at 1.
  rewrite get_object_eq, Hpk, Hdel.
  destruct (bool_decide _ && _); [done|].
  unfold TaskSerializer.update, notifications.delay. unfold_m.
  fold (merged now t v). cbv zeta.
  change (Task.id (merged now t v)) with (Task.id t).
  change (Task.assignee (merged now t v))
    with (default (Task.assignee t) (TaskSerializer.v_assignee v)).
  destruct (default (Task.assignee t) (TaskSerializer.v_assignee v)) as [n|]; [|done].
  destruct (Task.assignee t) as [o|]; [|done].
  by destruct (bool_decide (o ≠ n)).
Qed.

Lemma create_eq now user data db :
  TaskListCreateView.create now user data db =
    match TaskSerializer.run_validation (auth_user db) false data with
    | None => Raise ValidationError db
    | Some v =>
        let pk := tm_tasks_id_seq db + 1 in
        match tm_tasks db !! pk with
        | Some _ => Raise IntegrityError (set_seq pk db)
        | None =>
            let t := TaskSerializer.instantiate now pk (User.id user) v in
            let db1 := set_tasks <[pk := t]> (set_seq pk db) in
            match Task.assignee t with
            | Some _ => Ok t (set_celery (λ q, q ++ [(pk, "assigned"%string)]) db1)
            | None => Ok t db1
            end
        end
    end.
Proof.
  unfold TaskListCreateView.create. unfold mbind at 1, M_bind at 1, gets at 1.
  destruct (TaskSerializer.run_validation _ _ _) as [v|]; [|done].
  unfold TaskListCreateView.perform_create, TaskSerializer.create,
    notifications.delay. unfold_m. cbv zeta.
  change (tm_tasks (set_seq (tm_tasks_id_seq db + 1) db)) with (tm_tasks db).
  destruct (tm_tasks db !! (tm_tasks_id_seq db + 1)); [done|].
  change (Task.assignee (TaskSerializer.instantiate now (tm_tasks_id_seq db + 1)
            (User.id user) v))
    with (default None (TaskSerializer.v_assignee v)).
  by destruct (default None (TaskSerializer.v_assignee v)).
Qed.

Lemma list_state user q db :
  state_of (TaskListCreateView.list user q db) = db.
Proof.
  unfold TaskListCreateView.list, TaskListCreateView.get_queryset,
    TaskListCreateView.django_filter_backend. unfold_m.
  by destruct (_ && _).
Qed.

Lemma retrieve_state user pk db :
  state_of (TaskDetailView.retrieve user pk db) = db.
Proof.
  rewrite retrieve_eq. destruct (tm_tasks db !! pk) as [t|]; [|done].
  by destruct (Task.is_deleted t).
Qed.

(** ** The jobs write to the outbox only *)

Lemma same_but_outbox_refl db : same_but_outbox db db.
Proof. by repeat split. Qed.

Lemma same_but_outbox_trans db1 db2 db3 :
  same_but_outbox db1 db2 → same_but_outbox db2 db3 → same_but_outbox db1 db3.
Proof. unfold same_but_outbox. intros (?&?&?&?&?) (?&?&?&?&?). repeat split; congruence. Qed.

Lemma assignee_email_state t db :
  state_of (notifications.assignee_email t db) = db.
Proof.
  unfold notifications.assignee_email. destruct (Task.assignee t); [|done].
  unfold_m. by destruct (auth_user db !! _).
Qed.

Lemma mail_to_assignee_outbox subject message t db :
  same_but_outbox db
    (state_of ((sender ← gets DEFAULT_FROM_EMAIL;
                to ← notifications.assignee_email t;
                notifications.send_mail subject message sender [to]) db)).
Proof.
  unfold mbind at 1, M_bind at 1, gets at 1.
  unfold mbind, M_bind.
  pose proof (assignee_email_state t db) as Hs.
  destruct (notifications.assignee_email t db) as [to db'|e db']; simpl in *; subst db'.
  - by repeat split.
  - apply same_but_outbox_refl.
Qed.

Lemma send_task_notification_outbox task_id action db :
  same_but_outbox db (state_of (notifications.send_task_notification task_id action db)).
Proof.
  unfold notifications.send_task_notification.
  unfold mbind at 1, M_bind at 1, gets at 1.
  destruct (tm_tasks db !! task_id) as [t|]; [|apply same_but_outbox_refl].
  apply mail_to_assignee_outbox.
Qed.

Lemma for_each_outbox {A} (l : list A) (body : A → M unit) :
  (∀ x db, same_but_outbox db (state_of (body x db))) →
  ∀ db, same_but_outbox db (state_of (notifications.for_each l body db)).
Proof.
  intros Hbody. induction l as [|x l IH]; intros db; simpl.
  - apply same_but_outbox_refl.
  - unfold mbind, M_bind. pose proof (Hbody x db) as Hx.
    destruct (body x db) as [[] db'|e db']; simpl in *; [|done].
    eapply same_but_outbox_trans; [exact Hx|apply IH].
Qed.

Lemma send_due_date_reminder_outbox now db :
  same_but_outbox db (state_of (notifications.send_due_date_reminder now db)).
Proof.
  unfold notifications.send_due_date_reminder.
  unfold mbind at 1, M_bind at 1, gets at 1.
  apply for_each_outbox. intros t db'. apply mail_to_assignee_outbox.
Qed.

(** ** How an event changes the task table *)

Lemma handle_row_step now user r db :
  row_step (tm_tasks db) (tm_tasks (handle now user r db)).
Proof.
  destruct r as [q|data|pk|pk partial data|pk]; simpl.
  - rewrite list_state. constructor.
  - rewrite create_eq.
    destruct (TaskSerializer.run_validation _ _ _) as [v|]; [|constructor].
    cbv zeta. destruct (tm_tasks db !! _) eqn:Hpk; [constructor|].
    destruct (Task.assignee _); simpl; by constructor.
  - rewrite retrieve_state. constructor.
  - rewrite update_eq.
    destruct (tm_tasks db !! pk) as [t|] eqn:Hpk; [|constructor].
    destruct (Task.is_deleted t) eqn:Hdel; [constructor|].
    destruct (TaskSerializer.run_validation _ _ _) as [v|]; [|constructor].
    destruct (_ && _); [constructor|]. cbv zeta.
    destruct (Task.assignee (merged now t v)), (Task.assignee t);
      try destruct (bool_decide _); simpl; by econstructor.
  - rewrite destroy_eq.
    destruct (tm_tasks db !! pk) as [t|] eqn:Hpk; [|constructor].
    destruct (Task.is_deleted t) eqn:Hdel; [constructor|].
    destruct (_ && _); [constructor|]. simpl. by econstructor.
Qed.

Lemma exec_row_step e db : row_step (tm_tasks db) (tm_tasks (exec e db)).
Proof.
  destruct e as [now user r| |now]; simpl.
  - apply handle_row_step.
  - destruct (celery db) as [|[task_id action] rest]; [constructor|].
    destruct (send_task_notification_outbox task_id action
                (set_celery (λ _, rest) db)) as (_&->&_).
    constructor.
  - destruct (send_due_date_reminder_outbox now db) as (_&->&_). constructor.
Qed.

Lemma row_step_well_keyed rows rows' :
  row_step rows rows' →
  (∀ pk t, rows !! pk = Some t → Task.id t = pk) →
  ∀ pk t, rows' !! pk = Some t → Task.id t = pk.
Proof.
  intros Hstep Hk. destruct Hstep as [|now k owner v Hnone|now k t0 v H0 Hd|now k t0 H0 Hd];
    intros pk t; [apply Hk|..]; rewrite lookup_insert; case_decide; subst;
    try apply Hk; by intros [= <-].
Qed.

Lemma row_step_marker rows rows' :
  row_step rows rows' →
  (∀ pk t, rows !! pk = Some t → Task.is_deleted t = true ↔ is_Some (Task.deleted_at t)) →
  ∀ pk t, rows' !! pk = Some t → Task.is_deleted t = true ↔ is_Some (Task.deleted_at t).
Proof.
  intros Hstep Hk. destruct Hstep as [|now k owner v Hnone|now k t0 v H0 Hd|now k t0 H0 Hd];
    intros pk t; [apply Hk|..]; rewrite lookup_insert; case_decide; subst;
    try apply Hk; intros [= <-]; simpl.
  - split; [done|]. by intros [? [=]].
  - by apply (Hk k).
  - split; eauto.
Qed.

Lemma row_step_deleted rows rows' pk t :
  row_step rows rows' →
  (∀ pk t, rows !! pk = Some t → Task.id t = pk) →
  rows !! pk = Some t → Task.is_deleted t = true →
  ∃ t', rows' !! pk = Some t' ∧ Task.is_deleted t' = true.
Proof.
  intros Hstep Hk Hpk Hdel.
  destruct Hstep as [|now k owner v Hnone|now k t0 v H0 Hd|now k t0 H0 Hd].
  - eauto.
  - exists t. split; [|done]. rewrite lookup_insert_ne; [done|congruence].
  - rewrite (Hk _ _ H0). exists t. split; [|done].
    rewrite lookup_insert_ne; [done|]. intros ->. congruence.
  - rewrite (Hk _ _ H0). exists t. split; [|done].
    rewrite lookup_insert_ne; [done|]. intros ->. congruence.
Qed.

Lemma well_keyed_exec e db : well_keyed db → well_keyed (exec e db).
Proof. intros H. exact (row_step_well_keyed _ _ (exec_row_step e db) H). Qed.

Lemma well_keyed_run es db : well_keyed db → well_keyed (run es db).
Proof.
  revert db. induction es as [|e es IH]; intros db H; [done|].
  simpl. apply IH. by apply well_keyed_exec.
Qed.

Lemma well_keyed_initial users sender : well_keyed (initial users sender).
Proof. intros pk t. simpl. by rewrite lookup_empty. Qed.

(** ** Reads *)

Lemma order_by_elem terms (q : gmap Z Task) t :
  t ∈ order_by terms q ↔ ∃ pk, q !! pk = Some t.
Proof.
  unfold order_by. rewrite merge_sort_Permutation, list_elem_of_fmap. split.
  - intros [[pk t'] [-> H%elem_of_map_to_list]]. eauto.
  - intros [pk H]. exists (pk, t). split; [done|]. by apply elem_of_map_to_list.
Qed.

Lemma exact_lookup {A} `{EqDecision A} (p : option A) (col : Task → A)
    (q : gmap Z Task) pk t :
  TaskListCreateView.exact p col q !! pk = Some t → q !! pk = Some t.
Proof.
  unfold TaskListCreateView.exact. destruct p; [|done].
  by intros [??]%map_lookup_filter_Some.
Qed.

Lemma list_elem user q db ts db' t :
  TaskListCreateView.list user q db = Ok ts db' → t ∈ ts →
  ∃ pk, tm_tasks db !! pk = Some t ∧ Task.is_deleted t = false.
Proof.
  unfold TaskListCreateView.list, TaskListCreateView.get_queryset,
    TaskListCreateView.django_filter_backend. unfold_m.
  destruct (_ && _); [|done]. intros [= <- <-].
  unfold TaskListCreateView.ordering_filter.
  intros Hin.
  assert (∃ terms, t ∈ order_by terms
            (TaskListCreateView.exact (TaskListCreateView.owner q) Task.owner
            (TaskListCreateView.exact (TaskListCreateView.status q) Task.status
            (TaskListCreateView.exact (Some <$> TaskListCreateView.assignee q) Task.assignee
            (TaskListCreateView.exact (Some <$> TaskListCreateView.due_date q) Task.due_date
            (TaskQuerySet.not_deleted (tm_tasks db))))))) as [terms Ht].
  { destruct (TaskListCreateView.ordering q); eauto. }
  apply order_by_elem in Ht as [pk Hpk].
  do 4 apply exact_lookup in Hpk.
  rewrite lookup_not_deleted in Hpk.
  destruct (tm_tasks db !! pk) as [t'|] eqn:E; [|done].
  destruct (Task.is_deleted t') eqn:D; [done|]. injection Hpk as <-. eauto.
Qed.

(** C4. No soft-deleted task is ever returned by a read: every task in the
    result of List, and the task returned by Retrieve, is a stored row whose
    [is_deleted] is false. *)
Theorem reads_exclude_deleted :
  (∀ user q db ts db',
     TaskListCreateView.list user q db = Ok ts db' →
     ∀ t, t ∈ ts →
       Task.is_deleted t = false ∧ ∃ pk, tm_tasks db !! pk = Some t) ∧
  (∀ user pk db t db',
     TaskDetailView.retrieve user pk db = Ok t db' →
     Task.is_deleted t = false ∧ tm_tasks db !! pk = Some t).
Proof.
  split.
  - intros user q db ts db' Hl t Hin.
    destruct (list_elem _ _ _ _ _ _ Hl Hin) as (pk & ? & ?). eauto.
  - intros user pk db t db'. rewrite retrieve_eq.
    destruct (tm_tasks db !! pk) as [t'|]; [|done].
    destruct (Task.is_deleted t') eqn:D; [done|]. by intros [= <- <-].
Qed.

Lemma reads_exclude_deleted_witness :
  (Task.is_deleted Fixtures.overdue = false ∧
   ∃ pk, tm_tasks Fixtures.db_reminders !! pk = Some Fixtures.overdue) ∧
  (Task.is_deleted Fixtures.due_in_an_hour = false ∧
   tm_tasks Fixtures.db_reminders !! 1 = Some Fixtures.due_in_an_hour).
Proof.
  split.
  - apply (proj1 reads_exclude_deleted Fixtures.bob Fixtures.no_query
             Fixtures.db_reminders
             [Fixtures.due_in_an_hour; Fixtures.overdue] Fixtures.db_reminders).
    + vm_compute. reflexivity.
    + apply list_elem_of_further, list_elem_of_here.
  - apply (proj2 reads_exclude_deleted Fixtures.bob 1 Fixtures.db_reminders
             Fixtures.due_in_an_hour Fixtures.db_reminders).
    vm_compute. reflexivity.
Defined.

(** ** Soft delete *)

Lemma deleted_run es : ∀ db pk t,
  well_keyed db → tm_tasks db !! pk = Some t → Task.is_deleted t = true →
  ∃ t', tm_tasks (run es db) !! pk = Some t' ∧ Task.is_deleted t' = true.
Proof.
  induction es as [|e es IH]; intros db pk t Hk Hpk Hdel; [by eauto|].
  simpl.
  destruct (row_step_deleted _ _ pk t (exec_row_step e db) Hk Hpk Hdel)
    as (t1 & H1 & Hd1).
  eapply IH; eauto using well_keyed_exec.
Qed.

Lemma deleted_not_found db pk t :
  tm_tasks db !! pk = Some t → Task.is_deleted t = true →
  (∀ user, TaskDetailView.retrieve user pk db = Raise Http404 db) ∧
  (∀ now user, TaskDetailView.destroy now user pk db = Raise Http404 db) ∧
  (∀ now user partial data,
     TaskDetailView.update now user pk partial data db = Raise Http404 db).
Proof.
  intros Hpk Hdel. split_and!; intros.
  - by rewrite retrieve_eq, Hpk, Hdel.
  - by rewrite destroy_eq, Hpk, Hdel.
  - by rewrite update_eq, Hpk, Hdel.
Qed.

Lemma destroy_ok now user pk db db1 :
  TaskDetailView.destroy now user pk db = Ok tt db1 →
  ∃ t, tm_tasks db !! pk = Some t ∧ Task.is_deleted t = false ∧
       permitted user t ∧
       db1 = set_tasks <[Task.id t := Task.delete now t]> db.
Proof.
  rewrite destroy_eq. destruct (tm_tasks db !! pk) as [t|]; [|done].
  destruct (Task.is_deleted t) eqn:Hdel; [done|].
  destruct (_ && _) eqn:Hp; [done|]. intros [= <-].
  apply denied_false_iff in Hp. by exists t.
Qed.

(** C3. Soft delete is monotonic.  Once Delete(pk) has succeeded, then after
    any further events (requests of any caller, job runs) the row is still
    stored with [is_deleted] true, and Retrieve(pk), Delete(pk) and
    Update(pk) all fail with NotFound and change nothing. *)
Theorem soft_delete_monotonic now user pk db db1 es :
  well_keyed db →
  TaskDetailView.destroy now user pk db = Ok tt db1 →
  let db2 := run es db1 in
  (∃ t, tm_tasks db2 !! pk = Some t ∧ Task.is_deleted t = true) ∧
  (∀ user', TaskDetailView.retrieve user' pk db2 = Raise Http404 db2) ∧
  (∀ now' user', TaskDetailView.destroy now' user' pk db2 = Raise Http404 db2) ∧
  (∀ now' user' partial data,
     TaskDetailView.update now' user' pk partial data db2 = Raise Http404 db2).
Proof.
  intros Hk Hd db2.
  destruct (destroy_ok _ _ _ _ _ Hd) as (t & Hpk & Hlive & _ & ->).
  assert (Task.id t = pk) as Hid by by apply Hk.
  assert (well_keyed (set_tasks <[Task.id t := Task.delete now t]> db)) as Hk1.
  { exact (row_step_well_keyed _ _ (row_delete _ now pk t Hpk Hlive) Hk). }
  destruct (deleted_run es _ pk (Task.delete now t) Hk1) as (t2 & H2 & Hd2).
  { simpl. rewrite Hid. apply lookup_insert_eq. }
  { done. }
  split; [by eauto|]. by apply (deleted_not_found _ _ t2).
Qed.

Lemma decide_well_keyed db :
  bool_decide (map_Forall (λ pk t, Task.id t = pk) (tm_tasks db)) = true →
  well_keyed db.
Proof. intros H%bool_decide_eq_true. exact H. Qed.

Lemma soft_delete_monotonic_witness :
  let db2 :=
    run [ Http 400 Fixtures.root (Update 1 true Fixtures.patch_completed);
          Http 500 Fixtures.bob (Create Fixtures.post_for_bob);
          Worker;
          Beat 600;
          Http 700 Fixtures.alice (Delete 1);
          Http 800 Fixtures.carol (List Fixtures.no_query) ]
        (set_tasks <[1 := Task.delete 300 Fixtures.doc]> Fixtures.db_doc) in
  (∃ t, tm_tasks db2 !! 1 = Some t ∧ Task.is_deleted t = true) ∧
  (∀ user', TaskDetailView.retrieve user' 1 db2 = Raise Http404 db2) ∧
  (∀ now' user', TaskDetailView.destroy now' user' 1 db2 = Raise Http404 db2) ∧
  (∀ now' user' partial data,
     TaskDetailView.update now' user' 1 partial data db2 = Raise Http404 db2).
Proof.
  apply (soft_delete_monotonic 300 Fixtures.alice 1 Fixtures.db_doc).
  - apply decide_well_keyed. vm_compute. reflexivity.
  - vm_compute. reflexivity.
Defined.

(** C8. On every stored row, [is_deleted] is true exactly when [deleted_at]
    is set: every event (Create, Update, Delete, any other request, a job
    run) preserves this, and it holds in every state reached from a fresh
    installation. *)
Theorem marker_pair_invariant :
  (∀ e db, marker_consistent db → marker_consistent (exec e db)) ∧
  (∀ db, reachable db → marker_consistent db).
Proof.
  assert (∀ e db, marker_consistent db → marker_consistent (exec e db)) as Hstep.
  { intros e db H. exact (row_step_marker _ _ (exec_row_step e db) H). }
  split; [exact Hstep|].
  intros db (users & sender & es & ->).
  assert (∀ db, marker_consistent db → marker_consistent (run es db)) as Hrun.
  { induction es as [|e es IH]; intros db H; [done|]. simpl. by apply IH, Hstep. }
  apply Hrun. intros pk t. simpl. by rewrite lookup_empty.
Qed.

Lemma decide_marker_consistent db :
  bool_decide (map_Forall (λ (_ : Z) t,
     Task.is_deleted t = true ↔ is_Some (Task.deleted_at t)) (tm_tasks db)) = true →
  marker_consistent db.
Proof. intros H%bool_decide_eq_true. exact H. Qed.

Lemma marker_pair_invariant_witness :
  marker_consistent (exec (Http 300 Fixtures.alice (Delete 1)) Fixtures.db_two) ∧
  marker_consistent
    (run [ Http 100 Fixtures.alice (Create Fixtures.post_doc);
           Http 200 Fixtures.alice (Update 1 true Fixtures.patch_completed);
           Http 300 Fixtures.alice (Delete 1) ] Fixtures.db_fresh).
Proof.
  split.
  - apply (proj1 marker_pair_invariant).
    apply decide_marker_consistent. vm_compute. reflexivity.
  - apply (proj2 marker_pair_invariant).
    exists Fixtures.users, "noreply@example.com"%string. eexists. reflexivity.
Defined.

(** The table of the witness above really holds a deleted row. *)
Example marker_pair_after_delete :
  tm_tasks (run [ Http 100 Fixtures.alice (Create Fixtures.post_doc);
                  Http 200 Fixtures.alice (Update 1 true Fixtures.patch_completed);
                  Http 300 Fixtures.alice (Delete 1) ] Fixtures.db_fresh) !! 1
  = Some (Task.mk 1 "Doc" "x" "completed" 1 None None 100 300 true (Some 300)).
Proof. vm_compute. reflexivity. Qed.

(** C9 as stated fails: a second [delete] at a later time moves
    [deleted_at] and [updated_at], so the end state is not that of the first
    call. *)
Lemma second_delete_restamps :
  Task.delete 400 (Task.delete 300 Fixtures.doc) ≠ Task.delete 300 Fixtures.doc.
Proof. vm_compute. discriminate. Qed.

(** C9, amended.  Calling [delete] twice leaves the row as one call made at
    the time of the second does; against the state after the first call only
    [updated_at] and [deleted_at] move, to the time of the second call.  The
    same holds of the table the two calls write to. *)
Theorem soft_delete_twice now1 now2 t db :
  Task.delete now2 (Task.delete now1 t) = Task.delete now2 t ∧
  (let t1 := Task.delete now1 t in
   Task.delete now2 t1 =
     Task.mk (Task.id t1) (Task.title t1) (Task.description t1) (Task.status t1)
       (Task.owner t1) (Task.assignee t1) (Task.due_date t1) (Task.created_at t1)
       now2 (Task.is_deleted t1) (Some now2)) ∧
  Task.is_deleted (Task.delete now2 (Task.delete now1 t)) = true ∧
  set_tasks <[Task.id t := Task.delete now2 (Task.delete now1 t)]>
    (set_tasks <[Task.id t := Task.delete now1 t]> db)
  = set_tasks <[Task.id t := Task.delete now2 t]> db.
Proof.
  split_and!; try reflexivity.
  unfold set_tasks. simpl. f_equal. apply insert_insert_eq.
Qed.

Lemma run_validation_assignee users partial data v uid :
  TaskSerializer.run_validation users partial data = Some v →
  TaskSerializer.v_assignee v = Some (Some uid) →
  is_Some (users !! uid).
Proof.
  unfold TaskSerializer.run_validation.
  destruct (TaskSerializer.char_field _ _ (TaskSerializer.title data)); [|done].
  destruct (TaskSerializer.char_field _ _ (TaskSerializer.description data)); [|done].
  destruct (TaskSerializer.choice_field _); [|done]. simpl.
  unfold TaskSerializer.primary_key_related_field.
  destruct (TaskSerializer.assignee data) as [| |pk]; simpl.
  - destruct (TaskSerializer.date_time_field _); simpl; [|done]. by intros [= <-].
  - destruct (TaskSerializer.date_time_field _); simpl; [|done]. by intros [= <-].
  - destruct (users !! pk) eqn:Hu; simpl; [|done].
    destruct (TaskSerializer.date_time_field _); simpl; [|done].
    intros [= <-]. simpl. intros [= <-]. by rewrite Hu.
Qed.

Lemma run_validation_unknown_assignee users partial data uid :
  TaskSerializer.assignee data = TaskSerializer.Value uid →
  users !! uid = None →
  TaskSerializer.run_validation users partial data = None.
Proof.
  intros Ha Hu. unfold TaskSerializer.run_validation.
  destruct (TaskSerializer.char_field _ _ (TaskSerializer.title data)); [|done].
  destruct (TaskSerializer.char_field _ _ (TaskSerializer.description data)); [|done].
  destruct (TaskSerializer.choice_field _); [|done]. simpl.
  unfold TaskSerializer.primary_key_related_field. by rewrite Ha, Hu.
Qed.

Lemma send_task_notification_eq task_id action db t uid u :
  tm_tasks db !! task_id = Some t → Task.assignee t = Some uid →
  auth_user db !! uid = Some u →
  notifications.send_task_notification task_id action db =
    Ok tt (set_outbox (λ o, o ++
      [mkMail ("Task " +:+ action +:+ ": " +:+ Task.title t)
              [Str ("Task " +:+ notifications.quote +:+ Task.title t
                    +:+ notifications.quote +:+ " has been " +:+ action +:+ ".")]
              (DEFAULT_FROM_EMAIL db) [User.email u]]) db).
Proof.
  intros Ht Ha Hu. unfold notifications.send_task_notification,
    notifications.assignee_email, notifications.send_mail. unfold_m.
  by rewrite Ht, Ha, Hu.
Qed.

(** C6. A successful Create whose record has assignee U queues exactly one
    job, for the new task with action "assigned", and that job, run on the
    state Create leaves, sends one mail, to U's address; a successful Create
    with a null assignee queues nothing. *)
Theorem create_notifies_assignee now user data db t db' :
  TaskListCreateView.create now user data db = Ok t db' →
  match Task.assignee t with
  | None => celery db' = celery db
  | Some uid =>
      celery db' = celery db ++ [(Task.id t, "assigned"%string)] ∧
      ∃ u mail,
        auth_user db' !! uid = Some u ∧
        recipient_list mail = [User.email u] ∧
        notifications.send_task_notification (Task.id t) "assigned" db'
          = Ok tt (set_outbox (λ o, o ++ [mail]) db')
  end.
Proof.
  rewrite create_eq.
  destruct (TaskSerializer.run_validation _ _ _) as [v|] eqn:Hv; [|done].
  cbv zeta. destruct (tm_tasks db !! _) eqn:Hpk; [done|].
  destruct (Task.assignee (TaskSerializer.instantiate _ _ _ _)) as [uid|] eqn:Ha;
    intros [= <- <-]; rewrite Ha; [|done].
  split; [done|].
  destruct (run_validation_assignee _ _ _ v uid Hv) as [u Hu].
  { simpl in Ha. by destruct (TaskSerializer.v_assignee v) as [[?|]|]; simplify_eq/=. }
  eexists u, _. split; [exact Hu|]. split; [|eapply send_task_notification_eq].
  - reflexivity.
  - simpl. apply lookup_insert_eq.
  - exact Ha.
  - exact Hu.
Qed.

Lemma create_notifies_assignee_witness :
  ∃ db', celery db' = [(3, "assigned"%string)] ∧
    ∃ u mail,
      auth_user db' !! 2 = Some u ∧
      recipient_list mail = [User.email u] ∧
      notifications.send_task_notification 3 "assigned" db'
        = Ok tt (set_outbox (λ o, o ++ [mail]) db').
Proof.
  eexists.
  apply (create_notifies_assignee 500 Fixtures.alice Fixtures.post_for_bob
           Fixtures.db_two
           (Task.mk 3 "Report" "y" "in_progress" 1 (Some 2) None 500 500 false None)).
  vm_compute. reflexivity.
Defined.

Lemma update_ok now user pk partial data db t' db' :
  TaskDetailView.update now user pk partial data db = Ok t' db' →
  ∃ t v, tm_tasks db !! pk = Some t ∧ Task.is_deleted t = false ∧
    TaskSerializer.run_validation (auth_user db) partial data = Some v ∧
    permitted user t ∧ t' = merged now t v ∧
    tm_tasks db' = <[Task.id t := t']> (tm_tasks db) ∧
    celery db' = celery db ++ (Task.id t, "updated"%string) ::
      match Task.assignee t', Task.assignee t with
      | Some new_id, Some old_id =>
          if bool_decide (old_id ≠ new_id) then [(Task.id t, "assigned"%string)] else []
      | _, _ => []
      end.
Proof.
  rewrite update_eq. destruct (tm_tasks db !! pk) as [t|]; [|done].
  destruct (Task.is_deleted t) eqn:Hdel; [done|].
  destruct (TaskSerializer.run_validation _ _ _) as [v|]; [|done].
  destruct (_ && _) eqn:Hp; [done|]. apply denied_false_iff in Hp.
  cbv zeta. intros Hr. exists t, v.
  destruct (Task.assignee (merged now t v)) as [n|] eqn:Hn.
  - destruct (Task.assignee t) as [o|] eqn:Ho; [|done].
    destruct (bool_decide (o ≠ n)) eqn:Hne; injection Hr as <- <-;
      rewrite Hn; split_and!; simpl; rewrite ?Hne; try done.
    by rewrite <-(assoc_L (++)).
  - injection Hr as <- <-. rewrite Hn. by split_and!.
Qed.

(** C7. A successful Update that leaves the assignee as it was, null or
    not, queues exactly one job, with action "updated". *)
Theorem update_same_assignee now user pk partial data db t t' db' :
  tm_tasks db !! pk = Some t →
  TaskDetailView.update now user pk partial data db = Ok t' db' →
  Task.assignee t' = Task.assignee t →
  celery db' = celery db ++ [(Task.id t', "updated"%string)].
Proof.
  intros Hpk Hu Hsame.
  destruct (update_ok _ _ _ _ _ _ _ _ Hu) as (t0 & v & Hpk' & _ & _ & _ & Ht' & _ & ->).
  rewrite Hpk in Hpk'. injection Hpk' as <-. rewrite Hsame.
  replace (Task.id t') with (Task.id t) by by rewrite Ht'.
  destruct (Task.assignee t) as [a|]; [|done].
  by rewrite bool_decide_eq_false_2 by naive_solver.
Qed.

Lemma update_same_assignee_witness :
  (∃ db', celery db' = [(2, "updated"%string)]) ∧
  (∃ db', celery db' = [(1, "updated"%string)]).
Proof.
  split; eexists.
  - apply (update_same_assignee 200 Fixtures.alice 2 true
             Fixtures.patch_completed Fixtures.db_two Fixtures.report
             (Task.mk 2 "Report" "y" "completed" 1 (Some 2) None 110 200 false None)).
    + vm_compute. reflexivity.
    + vm_compute. reflexivity.
    + reflexivity.
  - apply (update_same_assignee 200 Fixtures.root 1 true
             Fixtures.patch_completed Fixtures.db_two Fixtures.doc
             (Task.mk 1 "Doc" "x" "completed" 1 None None 100 200 false None)).
    + vm_compute. reflexivity.
    + vm_compute. reflexivity.
    + reflexivity.
Defined.

(** C1 fails on the code.  An administrator assigns Bob to Alice's
    unassigned task: the row is written and "updated" is queued, then the
    comparison reads [old_assignee.id] on None; the request ends in an
    AttributeError and "assigned" is never queued. *)
Theorem update_null_to_user_faults :
  TaskDetailView.update 200 Fixtures.root 1 true Fixtures.patch_assign_bob
      Fixtures.db_doc
  = Raise AttributeError
      (mkDB Fixtures.users
         (<[1 := Task.mk 1 "Doc" "x" "pending" 1 (Some 2) None 100 200 false None]> ∅)
         1 [(1, "updated"%string)] [] "noreply@example.com").
Proof. vm_compute. reflexivity. Qed.

(** The same for every unassigned task, permitted caller and valid payload
    that names an assignee. *)
Lemma assign_from_null_faults now user pk partial data db t v uid :
  tm_tasks db !! pk = Some t → Task.is_deleted t = false →
  Task.assignee t = None → permitted user t →
  TaskSerializer.run_validation (auth_user db) partial data = Some v →
  TaskSerializer.v_assignee v = Some (Some uid) →
  TaskDetailView.update now user pk partial data db =
    Raise AttributeError
      (set_celery (λ q, q ++ [(Task.id t, "updated"%string)])
         (set_tasks <[Task.id t := merged now t v]> db)).
Proof.
  intros Hpk Hdel Ha Hp Hv Hva. rewrite update_eq, Hpk, Hdel, Hv.
  apply denied_false_iff in Hp. rewrite Hp. cbv zeta.
  change (Task.assignee (merged now t v))
    with (default (Task.assignee t) (TaskSerializer.v_assignee v)).
  by rewrite Hva, Ha.
Qed.

(** C2 fails on the code.  At time [10 * day] the table holds a task due in
    an hour, a soft-deleted task due in an hour and a task three days
    overdue, all pending.  Only the first is in the described selection; the
    job mails the assignees of all three. *)
Theorem reminder_for_deleted_and_overdue :
  described_reminder_selection (10 * Fixtures.day) <$>
    [Fixtures.due_in_an_hour; Fixtures.deleted_due_in_an_hour; Fixtures.overdue]
  = [true; false; false] ∧
  ∃ db', notifications.send_due_date_reminder (10 * Fixtures.day)
           Fixtures.db_reminders = Ok tt db' ∧
    recipient_list <$> outbox db' =
      [["bob@example.com"]; ["carol@example.com"]; ["alice@example.com"]]%string ∧
    subject <$> outbox db' =
      [ "Reminder: Task " +:+ notifications.quote +:+ "Soon" +:+ notifications.quote +:+ " is due soon";
        "Reminder: Task " +:+ notifications.quote +:+ "Gone" +:+ notifications.quote +:+ " is due soon";
        "Reminder: Task " +:+ notifications.quote +:+ "Late" +:+ notifications.quote +:+ " is due soon" ].
Proof.
  split; [vm_compute; reflexivity|].
  eexists. split; [vm_compute; reflexivity|]. split; vm_compute; reflexivity.
Qed.

(** ** Authorization and validation *)

(** C5 as stated fails: validation comes before the ownership check.  Carol,
    neither owner nor administrator, patches Alice's task with a status
    outside the choices and gets a validation error, not Forbidden; Alice
    herself, with the same payload, does not succeed. *)
Lemma update_invalid_payload_not_forbidden :
  tm_tasks Fixtures.db_doc !! 1 = Some Fixtures.doc ∧
  Task.is_deleted Fixtures.doc = false ∧
  ¬ permitted Fixtures.carol Fixtures.doc ∧
  TaskDetailView.update 200 Fixtures.carol 1 true Fixtures.patch_bad_status
    Fixtures.db_doc = Raise ValidationError Fixtures.db_doc ∧
  TaskDetailView.update 200 Fixtures.carol 1 true Fixtures.patch_bad_status
    Fixtures.db_doc ≠ Raise PermissionDenied Fixtures.db_doc ∧
  permitted Fixtures.alice Fixtures.doc ∧
  succeeded (TaskDetailView.update 200 Fixtures.alice 1 true
               Fixtures.patch_bad_status Fixtures.db_doc) = false.
Proof.
  split_and!; try (vm_compute; reflexivity).
  - intros [H|H]; vm_compute in H; discriminate.
  - vm_compute. discriminate.
  - by left.
Qed.

(** C5, amended.  For a stored task that is not deleted:
    - Delete succeeds, soft-deleting the row, when the caller is the owner
      or an administrator, and otherwise fails with Forbidden and changes
      nothing;
    - an Update whose payload fails validation fails with a validation
      error for every caller and changes nothing;
    - an Update whose payload passes validation fails with Forbidden, and
      changes nothing, exactly when the caller is neither the owner nor an
      administrator; by the owner or an administrator it succeeds, writing
      the merged row, whenever the task had an assignee or ends up with
      none. *)
Theorem mutation_authorization now user pk db t :
  tm_tasks db !! pk = Some t → Task.is_deleted t = false →
  (permitted user t →
     TaskDetailView.destroy now user pk db
       = Ok tt (set_tasks <[Task.id t := Task.delete now t]> db)) ∧
  (¬ permitted user t →
     TaskDetailView.destroy now user pk db = Raise PermissionDenied db) ∧
  ∀ partial data,
    match TaskSerializer.run_validation (auth_user db) partial data with
    | None =>
        TaskDetailView.update now user pk partial data db
          = Raise ValidationError db
    | Some v =>
        (¬ permitted user t →
           TaskDetailView.update now user pk partial data db
             = Raise PermissionDenied db) ∧
        (permitted user t →
           ∀ db', TaskDetailView.update now user pk partial data db
                    ≠ Raise PermissionDenied db') ∧
        (permitted user t →
           is_Some (Task.assignee t) ∨ Task.assignee (merged now t v) = None →
           ∃ db', TaskDetailView.update now user pk partial data db
                    = Ok (merged now t v) db' ∧
                  tm_tasks db' = <[Task.id t := merged now t v]> (tm_tasks db))
    end.
Proof.
  intros Hpk Hdel. split_and!.
  - intros Hp%denied_false_iff. by rewrite destroy_eq, Hpk, Hdel, Hp.
  - intros Hp%denied_iff. by rewrite destroy_eq, Hpk, Hdel, Hp.
  - intros partial data. rewrite update_eq, Hpk, Hdel.
    destruct (TaskSerializer.run_validation _ _ _) as [v|]; [|done].
    split_and!.
    + intros Hp%denied_iff. by rewrite Hp.
    + intros Hp%denied_false_iff db'. rewrite Hp. clear Hp. cbv zeta.
      destruct (Task.assignee (merged now t v)), (Task.assignee t);
        try destruct (bool_decide _); intros [=].
    + intros Hp%denied_false_iff Ha. rewrite Hp. clear Hp. cbv zeta.
      destruct (Task.assignee (merged now t v)) as [n|].
      * destruct Ha as [[o Ho]|Ha]; [|done]. rewrite Ho.
        destruct (bool_decide _); eauto.
      * eauto.
Qed.

Lemma mutation_authorization_witness :
  TaskDetailView.destroy 300 Fixtures.alice 2 Fixtures.db_two
    = Ok tt (set_tasks <[2 := Task.delete 300 Fixtures.report]> Fixtures.db_two) ∧
  TaskDetailView.destroy 300 Fixtures.carol 2 Fixtures.db_two
    = Raise PermissionDenied Fixtures.db_two ∧
  TaskDetailView.update 300 Fixtures.carol 2 true Fixtures.patch_completed
    Fixtures.db_two = Raise PermissionDenied Fixtures.db_two ∧
  TaskDetailView.update 300 Fixtures.carol 2 true Fixtures.patch_bad_status
    Fixtures.db_two = Raise ValidationError Fixtures.db_two ∧
  ∃ db', TaskDetailView.update 300 Fixtures.root 2 true Fixtures.patch_assign_carol
           Fixtures.db_two
         = Ok (Task.mk 2 "Report" "y" "in_progress" 1 (Some 3) None 110 300 false None) db'.
Proof.
  assert (tm_tasks Fixtures.db_two !! 2 = Some Fixtures.report) as H2
    by (vm_compute; reflexivity).
  assert (¬ permitted Fixtures.carol Fixtures.report) as Hcarol
    by (intros [H|H]; vm_compute in H; discriminate).
  split_and!.
  - apply (proj1 (mutation_authorization 300 Fixtures.alice 2 Fixtures.db_two
                    Fixtures.report H2 eq_refl)). by left.
  - apply (proj1 (proj2 (mutation_authorization 300 Fixtures.carol 2
                    Fixtures.db_two Fixtures.report H2 eq_refl))). exact Hcarol.
  - apply (proj2 (proj2 (mutation_authorization 300 Fixtures.carol 2
                    Fixtures.db_two Fixtures.report H2 eq_refl))
             true Fixtures.patch_completed). exact Hcarol.
  - exact (proj2 (proj2 (mutation_authorization 300 Fixtures.carol 2
                    Fixtures.db_two Fixtures.report H2 eq_refl))
             true Fixtures.patch_bad_status).
  - destruct (proj2 (proj2 (proj2 (proj2 (mutation_authorization 300
                  Fixtures.root 2 Fixtures.db_two Fixtures.report H2 eq_refl))
                true Fixtures.patch_assign_carol)))
      as (db' & Hu & _); [by right|left; by eexists|].
    exists db'. exact Hu.
Defined.

(** C10 as stated fails for Update: the row is looked up before the payload
    is validated, so an Update of a key that is not stored fails with
    NotFound, not with a validation error, though 99 is no user's key. *)
Lemma update_unknown_assignee_not_found :
  Fixtures.users !! 99 = None ∧
  TaskSerializer.assignee Fixtures.patch_assign_nobody = TaskSerializer.Value 99 ∧
  TaskDetailView.update 200 Fixtures.alice 7 true Fixtures.patch_assign_nobody
    Fixtures.db_doc = Raise Http404 Fixtures.db_doc ∧
  TaskDetailView.update 200 Fixtures.alice 7 true Fixtures.patch_assign_nobody
    Fixtures.db_doc ≠ Raise ValidationError Fixtures.db_doc.
Proof.
  split_and!; try (vm_compute; reflexivity). vm_compute. discriminate.
Qed.

(** C10, amended.  When the assignee member of the payload is a key of no
    user, Create fails with a validation error; Update fails with a
    validation error when the task is stored and not deleted, and with
    NotFound otherwise; in every case the state is left as it was: no task
    created, none modified, nothing queued. *)
Theorem unknown_assignee_rejected now user data db uid :
  TaskSerializer.assignee data = TaskSerializer.Value uid →
  auth_user db !! uid = None →
  TaskListCreateView.create now user data db = Raise ValidationError db ∧
  ∀ pk partial,
    TaskDetailView.update now user pk partial data db =
      match tm_tasks db !! pk with
      | Some t =>
          if Task.is_deleted t then Raise Http404 db
          else Raise ValidationError db
      | None => Raise Http404 db
      end.
Proof.
  intros Ha Hu. split.
  - by rewrite create_eq, (run_validation_unknown_assignee _ _ _ uid).
  - intros pk partial. rewrite update_eq.
    by rewrite (run_validation_unknown_assignee _ _ _ uid).
Qed.

Lemma unknown_assignee_rejected_witness :
  TaskListCreateView.create 200 Fixtures.alice
    (TaskSerializer.mkData (TaskSerializer.Value "Doc") (TaskSerializer.Value "x")
       TaskSerializer.Absent (TaskSerializer.Value 99) TaskSerializer.Absent)
    Fixtures.db_doc = Raise ValidationError Fixtures.db_doc ∧
  TaskDetailView.update 200 Fixtures.alice 1 true Fixtures.patch_assign_nobody
    Fixtures.db_doc = Raise ValidationError Fixtures.db_doc.
Proof.
  split.
  - apply (unknown_assignee_rejected 200 Fixtures.alice _ Fixtures.db_doc 99);
      vm_compute; reflexivity.
  - rewrite (proj2 (unknown_assignee_rejected 200 Fixtures.alice
               Fixtures.patch_assign_nobody Fixtures.db_doc 99 eq_refl eq_refl)).
    vm_compute. reflexivity.
Defined.

(** * Further properties *)

(** ** The query set methods *)

(** [not_deleted] and [deleted] split the table: a stored row is in exactly
    one of them, and neither holds anything else. *)
Theorem querysets_partition (rows : gmap Z Task) :
  TaskQuerySet.not_deleted rows ∪ TaskQuerySet.deleted rows = rows ∧
  TaskQuerySet.not_deleted rows ##ₘ TaskQuerySet.deleted rows ∧
  ∀ pk t,
    (TaskQuerySet.not_deleted rows !! pk = Some t
       ↔ rows !! pk = Some t ∧ Task.is_deleted t = false) ∧
    (TaskQuerySet.deleted rows !! pk = Some t
       ↔ rows !! pk = Some t ∧ Task.is_deleted t = true).
Proof.
  unfold TaskQuerySet.not_deleted, TaskQuerySet.deleted.
  assert (filter (λ kv : Z * Task, Task.is_deleted kv.2 = false) rows
          ##ₘ filter (λ kv : Z * Task, Task.is_deleted kv.2 = true) rows) as Hdisj.
  { apply map_disjoint_spec. intros pk t1 t2.
    rewrite !map_lookup_filter_Some. simpl. intros [? ?] [? ?]. congruence. }
  split_and!; [|done|].
  - apply map_eq. intros pk. apply option_eq. intros t.
    rewrite lookup_union_Some by done. rewrite !map_lookup_filter_Some. simpl.
    destruct (Task.is_deleted t) eqn:E; naive_solver.
  - intros pk t. by rewrite !map_lookup_filter_Some.
Qed.

(** ** Validation *)

Lemma char_field_Some partial max f s :
  TaskSerializer.char_field partial max f = Some (Some s) →
  s ≠ EmptyString ∧ TaskSerializer.has_null_character s = false ∧
  (∀ n, max = Some n → (String.length s ≤ n)%nat) ∧
  ∃ raw, f = TaskSerializer.Value raw ∧ s = TaskSerializer.strip raw.
Proof.
  unfold TaskSerializer.char_field. destruct f as [| |raw]; [by destruct partial|done|].
  case_decide as Hne; [done|].
  destruct (TaskSerializer.has_null_character _) eqn:Hnul; [done|].
  destruct max as [n|].
  - destruct (n <? _)%nat eqn:Hlen; [done|]. intros [= <-].
    apply Nat.ltb_ge in Hlen. split_and!; eauto. by intros ? [= <-].
  - intros [= <-]. split_and!; eauto. done.
Qed.

Lemma char_field_skipped partial max f :
  TaskSerializer.char_field partial max f = Some None →
  partial = true ∧ f = TaskSerializer.Absent.
Proof.
  unfold TaskSerializer.char_field. destruct f as [| |raw]; [by destruct partial|done|].
  case_decide; [done|]. destruct (TaskSerializer.has_null_character _); [done|].
  destruct max as [n|]; [by destruct (n <? _)%nat|done].
Qed.

Lemma run_validation_Some users partial data v :
  TaskSerializer.run_validation users partial data = Some v ↔
    TaskSerializer.char_field partial (Some 255%nat) (TaskSerializer.title data)
      = Some (TaskSerializer.v_title v) ∧
    TaskSerializer.char_field partial None (TaskSerializer.description data)
      = Some (TaskSerializer.v_description v) ∧
    TaskSerializer.choice_field (TaskSerializer.status data)
      = Some (TaskSerializer.v_status v) ∧
    TaskSerializer.primary_key_related_field users (TaskSerializer.assignee data)
      = Some (TaskSerializer.v_assignee v) ∧
    TaskSerializer.date_time_field (TaskSerializer.due_date data)
      = Some (TaskSerializer.v_due_date v).
Proof.
  unfold TaskSerializer.run_validation.
  destruct (TaskSerializer.char_field _ _ (TaskSerializer.title data)) as [t|];
    [|simpl; naive_solver].
  destruct (TaskSerializer.char_field _ _ (TaskSerializer.description data)) as [d|];
    [|simpl; naive_solver].
  destruct (TaskSerializer.choice_field _) as [s|]; [|simpl; naive_solver].
  destruct (TaskSerializer.primary_key_related_field _ _) as [a|]; [|simpl; naive_solver].
  destruct (TaskSerializer.date_time_field _) as [dd|]; [|simpl; naive_solver].
  simpl. destruct v as [t' d' s' a' dd']. simpl. naive_solver.
Qed.

Lemma choice_field_Some f s :
  TaskSerializer.choice_field f = Some (Some s) → s ∈ Task.STATUS_CHOICES.*1.
Proof.
  unfold TaskSerializer.choice_field. destruct f; try done.
  case_decide; [|done]. by intros [= <-].
Qed.

Lemma primary_key_related_field_Some users f uid :
  TaskSerializer.primary_key_related_field users f = Some (Some (Some uid)) →
  is_Some (users !! uid).
Proof.
  unfold TaskSerializer.primary_key_related_field. destruct f as [| |pk]; try done.
  destruct (users !! pk) eqn:E; [|done]. intros [= <-]. by rewrite E.
Qed.

Lemma instantiate_valid users now pk owner data v :
  TaskSerializer.run_validation users false data = Some v →
  row_valid users (TaskSerializer.instantiate now pk owner v).
Proof.
  intros (Ht & Hd & Hs & Ha & _)%run_validation_Some.
  unfold row_valid. simpl.
  destruct (TaskSerializer.v_title v) as [t|];
    [|by apply char_field_skipped in Ht as [? _]].
  destruct (TaskSerializer.v_description v) as [d|];
    [|by apply char_field_skipped in Hd as [? _]].
  apply char_field_Some in Ht as (? & ? & Hlen & _).
  apply char_field_Some in Hd as (? & ? & _ & _).
  simpl. split_and!; try done.
  - destruct (TaskSerializer.v_status v) as [s|]; simpl.
    + by apply choice_field_Some in Hs.
    + set_solver.
  - by apply Hlen.
  - destruct (TaskSerializer.v_assignee v) as [[uid|]|]; simpl; try done.
    by apply primary_key_related_field_Some in Ha.
Qed.

Lemma merged_valid users now t partial data v :
  TaskSerializer.run_validation users partial data = Some v →
  row_valid users t → row_valid users (merged now t v).
Proof.
  intros (Ht & Hd & Hs & Ha & _)%run_validation_Some
    (Hst & Hne & Hlen & Hnul & Hdne & Hdnul & Hu).
  unfold row_valid. simpl. split_and!.
  - destruct (TaskSerializer.v_status v) as [s|]; simpl; [|done].
    by apply choice_field_Some in Hs.
  - destruct (TaskSerializer.v_title v); simpl; [|done].
    by apply char_field_Some in Ht as (? & _).
  - destruct (TaskSerializer.v_title v); simpl; [|done].
    apply char_field_Some in Ht as (_ & _ & H & _). by apply H.
  - destruct (TaskSerializer.v_title v); simpl; [|done].
    by apply char_field_Some in Ht as (_ & ? & _).
  - destruct (TaskSerializer.v_description v); simpl; [|done].
    by apply char_field_Some in Hd as (? & _).
  - destruct (TaskSerializer.v_description v); simpl; [|done].
    by apply char_field_Some in Hd as (_ & ? & _).
  - destruct (TaskSerializer.v_assignee v) as [[uid|]|]; simpl; try done.
    by apply primary_key_related_field_Some in Ha.
Qed.

(** ** Every write goes through validation *)

Lemma handle_write_step now user r db :
  write_step (auth_user db) (tm_tasks db) (tm_tasks (handle now user r db)) ∧
  auth_user (handle now user r db) = auth_user db.
Proof.
  destruct r as [q|data|pk|pk partial data|pk]; simpl.
  - rewrite list_state. split; [constructor|done].
  - rewrite create_eq.
    destruct (TaskSerializer.run_validation _ _ _) as [v|] eqn:Hv;
      [|split; [constructor|done]].
    cbv zeta. destruct (tm_tasks db !! _) eqn:Hpk; [split; [constructor|done]|].
    destruct (Task.assignee _); simpl; (split; [by econstructor|done]).
  - rewrite retrieve_state. split; [constructor|done].
  - rewrite update_eq.
    destruct (tm_tasks db !! pk) as [t|] eqn:Hpk; [|split; [constructor|done]].
    destruct (Task.is_deleted t) eqn:Hdel; [split; [constructor|done]|].
    destruct (TaskSerializer.run_validation _ _ _) as [v|] eqn:Hv;
      [|split; [constructor|done]].
    destruct (_ && _); [split; [constructor|done]|]. cbv zeta.
    destruct (Task.assignee (merged now t v)), (Task.assignee t);
      try destruct (bool_decide _); simpl; (split; [by econstructor|done]).
  - rewrite destroy_eq.
    destruct (tm_tasks db !! pk) as [t|] eqn:Hpk; [|split; [constructor|done]].
    destruct (Task.is_deleted t) eqn:Hdel; [split; [constructor|done]|].
    destruct (_ && _); [split; [constructor|done]|]. simpl.
    split; [by econstructor|done].
Qed.

Lemma exec_write_step e db :
  write_step (auth_user db) (tm_tasks db) (tm_tasks (exec e db)) ∧
  auth_user (exec e db) = auth_user db.
Proof.
  destruct e as [now user r| |now]; simpl.
  - apply handle_write_step.
  - destruct (celery db) as [|[task_id action] rest]; [split; [constructor|done]|].
    destruct (send_task_notification_outbox task_id action
                (set_celery (λ _, rest) db)) as (->&->&_).
    split; [constructor|done].
  - destruct (send_due_date_reminder_outbox now db) as (->&->&_).
    split; [constructor|done].
Qed.

Lemma write_step_valid users rows rows' :
  write_step users rows rows' →
  map_Forall (λ _ t, row_valid users t) rows →
  map_Forall (λ _ t, row_valid users t) rows'.
Proof.
  intros Hstep Hall.
  destruct Hstep as [|now k owner data v Hnone Hv|now k t0 partial data v H0 Hd Hv
                    |now k t0 H0 Hd]; [done|..]; apply map_Forall_insert_2; try done.
  - by eapply instantiate_valid.
  - eapply merged_valid; [done|]. by eapply Hall.
  - exact (Hall _ _ H0).
Qed.

Lemma auth_user_run es db : auth_user (run es db) = auth_user db.
Proof.
  revert db. induction es as [|e es IH]; intros db; [done|].
  simpl. rewrite IH. apply exec_write_step.
Qed.

Lemma reachable_rows_valid db :
  reachable db → ∀ pk t, tm_tasks db !! pk = Some t → row_valid (auth_user db) t.
Proof.
  intros (users & sender & es & ->).
  assert (∀ db, map_Forall (λ _ t, row_valid (auth_user db) t) (tm_tasks db) →
                map_Forall (λ _ t, row_valid (auth_user (run es db)) t)
                  (tm_tasks (run es db))) as Hrun.
  { induction es as [|e es IH]; intros db H; [done|]. simpl. apply IH.
    destruct (exec_write_step e db) as [Hstep ->].
    by eapply write_step_valid. }
  apply Hrun. simpl. apply map_Forall_empty.
Qed.


(** ** Rows persist *)

Lemma row_step_persist rows rows' pk t :
  row_step rows rows' →
  (∀ pk t, rows !! pk = Some t → Task.id t = pk) →
  rows !! pk = Some t →
  ∃ t', rows' !! pk = Some t' ∧
    Task.id t' = Task.id t ∧ Task.owner t' = Task.owner t ∧
    Task.created_at t' = Task.created_at t ∧
    (Task.is_deleted t = true → t' = t).
Proof.
  intros Hstep Hk Hpk.
  destruct Hstep as [|now k owner v Hnone|now k t0 v H0 Hd|now k t0 H0 Hd].
  - by exists t.
  - exists t. split; [|done]. rewrite lookup_insert_ne; [done|congruence].
  - rewrite (Hk _ _ H0). destruct (decide (k = pk)) as [->|Hne].
    + rewrite H0 in Hpk. injection Hpk as ->. rewrite lookup_insert_eq.
      eexists. split; [done|]. simpl. split_and!; try done. congruence.
    + exists t. by rewrite lookup_insert_ne.
  - rewrite (Hk _ _ H0). destruct (decide (k = pk)) as [->|Hne].
    + rewrite H0 in Hpk. injection Hpk as ->. rewrite lookup_insert_eq.
      eexists. split; [done|]. simpl. split_and!; try done. congruence.
    + exists t. by rewrite lookup_insert_ne.
Qed.

(** No row is ever removed, and no event changes a row's [id], [owner] or
    [created_at]; a soft-deleted row is frozen, no event changes any of its
    fields. *)
Theorem rows_persist es db pk t :
  well_keyed db → tm_tasks db !! pk = Some t →
  ∃ t', tm_tasks (run es db) !! pk = Some t' ∧
    Task.id t' = Task.id t ∧ Task.owner t' = Task.owner t ∧
    Task.created_at t' = Task.created_at t ∧
    (Task.is_deleted t = true → t' = t).
Proof.
  revert db t. induction es as [|e es IH]; intros db t Hk Hpk.
  - exists t. by split_and!.
  - simpl.
    destruct (row_step_persist _ _ pk t (exec_row_step e db) Hk Hpk)
      as (t1 & H1 & Hid & Ho & Hc & Hfrozen).
    destruct (IH (exec e db) t1 (well_keyed_exec e db Hk) H1)
      as (t2 & H2 & Hid2 & Ho2 & Hc2 & Hfrozen2).
    exists t2. split_and!; try congruence.
    intros Hdel. specialize (Hfrozen Hdel). subst t1. by apply Hfrozen2.
Qed.

Lemma rows_persist_witness :
  ∃ t', tm_tasks
          (run [ Http 200 Fixtures.root (Update 1 true Fixtures.patch_assign_bob);
                 Http 300 Fixtures.alice (Update 2 true Fixtures.patch_completed);
                 Http 400 Fixtures.alice (Delete 2);
                 Http 500 Fixtures.root (Update 2 true Fixtures.patch_assign_carol);
                 Worker; Beat 600 ] Fixtures.db_two) !! 2 = Some t' ∧
    Task.id t' = 2 ∧ Task.owner t' = 1 ∧ Task.created_at t' = 110 ∧
    (Task.is_deleted Fixtures.report = true → t' = Fixtures.report).
Proof.
  apply (rows_persist _ Fixtures.db_two 2 Fixtures.report).
  - apply decide_well_keyed. vm_compute. reflexivity.
  - vm_compute. reflexivity.
Defined.

(** ** Keys and the sequence *)

Lemma handle_keys_below_seq now user r db :
  well_keyed db → keys_below_seq db → keys_below_seq (handle now user r db).
Proof.
  intros Hw Hk. destruct r as [q|data|pk|pk partial data|pk]; simpl.
  - by rewrite list_state.
  - rewrite create_eq. destruct (TaskSerializer.run_validation _ _ _) as [v|]; [|done].
    cbv zeta. destruct (tm_tasks db !! _) as [t0|] eqn:Hpk.
    + intros k t. simpl. intros H%Hk. lia.
    + assert (keys_below_seq
                (set_tasks <[tm_tasks_id_seq db + 1 :=
                   TaskSerializer.instantiate now (tm_tasks_id_seq db + 1)
                     (User.id user) v]> (set_seq (tm_tasks_id_seq db + 1) db))) as H.
      { intros k t. simpl. rewrite lookup_insert. case_decide; [intros; lia|].
        intros Hkt%Hk. lia. }
      by destruct (Task.assignee _).
  - by rewrite retrieve_state.
  - rewrite update_eq. destruct (tm_tasks db !! pk) as [t|] eqn:Hpk; [|done].
    destruct (Task.is_deleted t); [done|].
    destruct (TaskSerializer.run_validation _ _ _) as [v|]; [|done].
    destruct (_ && _); [done|]. cbv zeta. rewrite (Hw _ _ Hpk).
    destruct (Task.assignee (merged now t v)), (Task.assignee t);
      try destruct (bool_decide _); simpl;
      intros k t'; simpl; rewrite lookup_insert;
      (case_decide; [subst k; intros _; by apply (Hk _ _ Hpk)|apply Hk]).
  - rewrite destroy_eq. destruct (tm_tasks db !! pk) as [t|] eqn:Hpk; [|done].
    destruct (Task.is_deleted t); [done|].
    destruct (_ && _); [done|]. simpl. rewrite (Hw _ _ Hpk).
    intros k t'; simpl; rewrite lookup_insert;
      (case_decide; [subst k; intros _; by apply (Hk _ _ Hpk)|apply Hk]).
Qed.

Lemma exec_keys_below_seq e db :
  well_keyed db → keys_below_seq db → keys_below_seq (exec e db).
Proof.
  intros Hw Hk. destruct e as [now user r| |now]; simpl.
  - by apply handle_keys_below_seq.
  - destruct (celery db) as [|[task_id action] rest]; [done|].
    destruct (send_task_notification_outbox task_id action
                (set_celery (λ _, rest) db)) as (_&Ht&Hs&_).
    intros k t. rewrite Ht, Hs. apply Hk.
  - destruct (send_due_date_reminder_outbox now db) as (_&Ht&Hs&_).
    intros k t. rewrite Ht, Hs. apply Hk.
Qed.

Lemma reachable_keys db : reachable db → well_keyed db ∧ keys_below_seq db.
Proof.
  intros (users & sender & es & ->).
  assert (∀ db, well_keyed db ∧ keys_below_seq db →
                well_keyed (run es db) ∧ keys_below_seq (run es db)) as Hrun.
  { induction es as [|e es IH]; intros db [Hw Hk]; [done|]. simpl. apply IH.
    split; [by apply well_keyed_exec|by apply exec_keys_below_seq]. }
  apply Hrun. split; [apply well_keyed_initial|].
  intros pk t. simpl. by rewrite lookup_empty.
Qed.

(** In every state reached from a fresh installation, a Create whose
    payload passes validation succeeds.  The new row takes the next key of
    the sequence, has the caller as owner whatever the payload holds,
    both timestamps at the time of the request and the soft-delete pair at
    its defaults; no other row changes, and Retrieve of the new key, by
    any user, returns the row. *)
Theorem create_succeeds now user data db v :
  reachable db →
  TaskSerializer.run_validation (auth_user db) false data = Some v →
  ∃ t db',
    TaskListCreateView.create now user data db = Ok t db' ∧
    Task.id t = tm_tasks_id_seq db + 1 ∧
    Task.owner t = User.id user ∧
    Task.created_at t = now ∧ Task.updated_at t = now ∧
    Task.is_deleted t = false ∧ Task.deleted_at t = None ∧
    tm_tasks db' = <[Task.id t := t]> (tm_tasks db) ∧
    tm_tasks db !! Task.id t = None ∧
    (∀ user', TaskDetailView.retrieve user' (Task.id t) db' = Ok t db').
Proof.
  intros [_ Hk]%reachable_keys Hv. rewrite create_eq, Hv. cbv zeta.
  destruct (tm_tasks db !! (tm_tasks_id_seq db + 1)) as [t0|] eqn:Hpk.
  { apply Hk in Hpk. lia. }
  set (t := TaskSerializer.instantiate now (tm_tasks_id_seq db + 1) (User.id user) v).
  assert (∀ db', tm_tasks db' = <[tm_tasks_id_seq db + 1 := t]> (tm_tasks db) →
                 ∀ user', TaskDetailView.retrieve user' (Task.id t) db' = Ok t db') as Hr.
  { intros db' Ht user'. rewrite retrieve_eq, Ht. simpl. by rewrite lookup_insert_eq. }
  destruct (Task.assignee t); eexists t, _; (split; [reflexivity|]);
    split_and!; try done; by apply Hr.
Qed.

Lemma create_succeeds_witness :
  ∃ t db',
    TaskListCreateView.create 500 Fixtures.carol Fixtures.post_for_bob
      (run [Http 100 Fixtures.alice (Create Fixtures.post_doc)] Fixtures.db_fresh)
      = Ok t db' ∧
    Task.id t = 1 + 1 ∧ Task.owner t = 3 ∧
    Task.created_at t = 500 ∧ Task.updated_at t = 500 ∧
    Task.is_deleted t = false ∧ Task.deleted_at t = None ∧
    tm_tasks db' = <[Task.id t := t]>
      (tm_tasks (run [Http 100 Fixtures.alice (Create Fixtures.post_doc)]
                   Fixtures.db_fresh)) ∧
    tm_tasks (run [Http 100 Fixtures.alice (Create Fixtures.post_doc)]
                Fixtures.db_fresh) !! Task.id t = None ∧
    (∀ user', TaskDetailView.retrieve user' (Task.id t) db' = Ok t db').
Proof.
  apply (create_succeeds 500 Fixtures.carol Fixtures.post_for_bob
           (run [Http 100 Fixtures.alice (Create Fixtures.post_doc)] Fixtures.db_fresh)
           (TaskSerializer.mkValidated (Some "Report") (Some "y")
              (Some "in_progress") (Some (Some 2)) None)).
  - exists Fixtures.users, "noreply@example.com"%string. eexists. reflexivity.
  - vm_compute. reflexivity.
Defined.


(** ** Refusals *)

(** A request answered with NotFound, Forbidden or a validation error
    leaves the whole state as it was; no view raises DoesNotExist.  (The two
    exceptions a request can leave a trace of are IntegrityError, after
    the sequence has moved, and AttributeError, after the row is written.) *)
Theorem refused_requests_change_nothing now user r db e :
  refusal now user r db = Some e →
  e ≠ DoesNotExist ∧
  (e ∈ [Http404; PermissionDenied; ValidationError] → handle now user r db = db).
Proof.
  destruct r as [q|data|pk|pk partial data|pk]; simpl.
  - unfold TaskListCreateView.list, TaskListCreateView.get_queryset,
      TaskListCreateView.django_filter_backend. unfold_m.
    destruct (_ && _); simpl; [done|]. by intros [= <-].
  - rewrite create_eq. destruct (TaskSerializer.run_validation _ _ _) as [v|];
      [|by intros [= <-]].
    cbv zeta. destruct (tm_tasks db !! _).
    + intros [= <-]. split; [done|]. set_solver.
    + by destruct (Task.assignee _).
  - rewrite retrieve_eq. destruct (tm_tasks db !! pk) as [t|]; [|by intros [= <-]].
    destruct (Task.is_deleted t); [by intros [= <-]|done].
  - rewrite update_eq. destruct (tm_tasks db !! pk) as [t|]; [|by intros [= <-]].
    destruct (Task.is_deleted t); [by intros [= <-]|].
    destruct (TaskSerializer.run_validation _ _ _) as [v|]; [|by intros [= <-]].
    destruct (_ && _); [by intros [= <-]|]. cbv zeta.
    destruct (Task.assignee (merged now t v)), (Task.assignee t);
      try destruct (bool_decide _); simpl; try done.
    intros [= <-]. split; [done|]. set_solver.
  - rewrite destroy_eq. destruct (tm_tasks db !! pk) as [t|]; [|by intros [= <-]].
    destruct (Task.is_deleted t); [by intros [= <-]|].
    by destruct (_ && _); [intros [= <-]|].
Qed.

Lemma refused_requests_change_nothing_witness :
  PermissionDenied ≠ DoesNotExist ∧
  (PermissionDenied ∈ [Http404; PermissionDenied; ValidationError] →
   handle 300 Fixtures.carol (Delete 2) Fixtures.db_two = Fixtures.db_two).
Proof.
  apply (refused_requests_change_nothing 300 Fixtures.carol (Delete 2)
           Fixtures.db_two PermissionDenied).
  vm_compute. reflexivity.
Defined.

(** ** Update *)




Lemma update_written now user pk partial data db t' db' :
  well_keyed db →
  TaskDetailView.update now user pk partial data db = Ok t' db' →
  (∀ user', TaskDetailView.retrieve user' pk db' = Ok t' db') ∧
  (∀ k, k ≠ pk → tm_tasks db' !! k = tm_tasks db !! k) ∧
  auth_user db' = auth_user db ∧ outbox db' = outbox db.
Proof.
  intros Hk Hu.
  assert (state_of (TaskDetailView.update now user pk partial data db) = db') as Hst
    by by rewrite Hu.
  destruct (update_ok _ _ _ _ _ _ _ _ Hu)
    as (t & v & Hpk & Hdel & Hv & _ & Ht' & Hrows & _).
  rewrite (Hk _ _ Hpk) in Hrows. split_and!.
  - intros user'. rewrite retrieve_eq, Hrows, lookup_insert_eq.
    by rewrite Ht'; simpl; rewrite Hdel.
  - intros k Hne. by rewrite Hrows, lookup_insert_ne.
  - rewrite <-Hst. apply (handle_write_step now user (Update pk partial data) db).
  - revert Hu. rewrite update_eq, Hpk, Hdel, Hv.
    destruct (_ && _); [done|]. cbv zeta.
    destruct (Task.assignee (merged now t v)), (Task.assignee t);
      try destruct (bool_decide _); try done; by intros [= _ <-].
Qed.

(** A successful Update writes only its own row and what it returns is what
    Retrieve then gives back, to any user. *)
Theorem update_then_retrieve now user pk partial data db t' db' :
  well_keyed db →
  TaskDetailView.update now user pk partial data db = Ok t' db' →
  (∀ user', TaskDetailView.retrieve user' pk db' = Ok t' db') ∧
  (∀ k, k ≠ pk → tm_tasks db' !! k = tm_tasks db !! k) ∧
  auth_user db' = auth_user db ∧ outbox db' = outbox db.
Proof. intros Hk Hu. by eapply update_written. Qed.

Lemma update_then_retrieve_witness :
  let t' := Task.mk 2 "Report" "y" "completed" 1 (Some 2) None 110 200 false None in
  ∃ db',
    (∀ user', TaskDetailView.retrieve user' 2 db' = Ok t' db') ∧
    (∀ k, k ≠ 2 → tm_tasks db' !! k = tm_tasks Fixtures.db_two !! k) ∧
    auth_user db' = auth_user Fixtures.db_two ∧ outbox db' = outbox Fixtures.db_two.
Proof.
  intros t'. eexists.
  apply (update_then_retrieve 200 Fixtures.alice 2 true Fixtures.patch_completed
           Fixtures.db_two t').
  - apply decide_well_keyed. vm_compute. reflexivity.
  - vm_compute. reflexivity.
Defined.

(** A successful Update that moves the task from one user to another queues
    "updated" and then "assigned", in this order and nothing else; the
    "assigned" job, run on the state the Update leaves, mails the new
    assignee. *)
Theorem update_reassigns now user pk partial data db t t' db' old_id new_id :
  well_keyed db →
  tm_tasks db !! pk = Some t →
  TaskDetailView.update now user pk partial data db = Ok t' db' →
  Task.assignee t = Some old_id → Task.assignee t' = Some new_id →
  old_id ≠ new_id →
  celery db' = celery db ++ [(pk, "updated"%string); (pk, "assigned"%string)] ∧
  ∃ u mail,
    auth_user db' !! new_id = Some u ∧
    recipient_list mail = [User.email u] ∧
    notifications.send_task_notification pk "assigned" db'
      = Ok tt (set_outbox (λ o, o ++ [mail]) db').
Proof.
  intros Hk Hpk Hu Ho Hn Hne.
  destruct (update_written _ _ _ _ _ _ _ _ Hk Hu) as (Hr & _ & Husers & _).
  destruct (update_ok _ _ _ _ _ _ _ _ Hu)
    as (t0 & v & Hpk' & Hdel & Hv & _ & Ht' & Hrows & Hq).
  rewrite Hpk in Hpk'. injection Hpk' as <-.
  rewrite (Hk _ _ Hpk) in Hrows, Hq. rewrite Hn, Ho in Hq.
  rewrite bool_decide_eq_true_2 in Hq by done. split; [done|].
  assert (is_Some (auth_user db !! new_id)) as [u Hu'].
  { apply (run_validation_assignee _ _ _ v new_id Hv).
    rewrite Ht' in Hn. simpl in Hn.
    destruct (TaskSerializer.v_assignee v) as [[u|]|]; simpl in Hn; congruence. }
  exists u. eexists. split; [by rewrite Husers|]. split; [|
    eapply (send_task_notification_eq pk "assigned" db' t' new_id u)].
  - reflexivity.
  - specialize (Hr user). rewrite retrieve_eq in Hr.
    destruct (tm_tasks db' !! pk) as [t1|]; [|done].
    destruct (Task.is_deleted t1); [done|]. by injection Hr as ->.
  - done.
  - by rewrite Husers.
Qed.

Lemma update_reassigns_witness :
  ∃ db',
    celery db' = celery Fixtures.db_two
                 ++ [(2, "updated"%string); (2, "assigned"%string)] ∧
    ∃ u mail,
      auth_user db' !! 3 = Some u ∧
      recipient_list mail = [User.email u] ∧
      notifications.send_task_notification 2 "assigned" db'
        = Ok tt (set_outbox (λ o, o ++ [mail]) db').
Proof.
  eexists.
  apply (update_reassigns 300 Fixtures.root 2 true Fixtures.patch_assign_carol
           Fixtures.db_two Fixtures.report
           (Task.mk 2 "Report" "y" "in_progress" 1 (Some 3) None 110 300 false None)
           _ 2 3).
  - apply decide_well_keyed. vm_compute. reflexivity.
  - vm_compute. reflexivity.
  - vm_compute. reflexivity.
  - reflexivity.
  - reflexivity.
  - discriminate.
Defined.

(** ** Delete *)

(** A successful Delete removes nothing and queues nothing: the row stays
    in the table, now in the [deleted] query set, with [is_deleted] true and
    [deleted_at] and [updated_at] at the time of the request, every other
    field as it was; every other row, the queue and the outbox are
    untouched. *)
Theorem destroy_effects now user pk db db' :
  well_keyed db →
  TaskDetailView.destroy now user pk db = Ok tt db' →
  ∃ t,
    tm_tasks db !! pk = Some t ∧
    tm_tasks db' = <[pk := Task.delete now t]> (tm_tasks db) ∧
    TaskQuerySet.deleted (tm_tasks db') !! pk = Some (Task.delete now t) ∧
    TaskQuerySet.not_deleted (tm_tasks db') !! pk = None ∧
    dom (tm_tasks db') = dom (tm_tasks db) ∧
    celery db' = celery db ∧ outbox db' = outbox db ∧
    auth_user db' = auth_user db ∧ tm_tasks_id_seq db' = tm_tasks_id_seq db ∧
    Task.delete now t =
      Task.mk (Task.id t) (Task.title t) (Task.description t) (Task.status t)
        (Task.owner t) (Task.assignee t) (Task.due_date t) (Task.created_at t)
        now true (Some now).
Proof.
  intros Hk Hd.
  destruct (destroy_ok _ _ _ _ _ Hd) as (t & Hpk & Hdel & _ & ->).
  rewrite (Hk _ _ Hpk). exists t. simpl. split_and!; try done.
  - apply map_lookup_filter_Some. by rewrite lookup_insert_eq.
  - by rewrite lookup_not_deleted, lookup_insert_eq.
  - apply dom_insert_lookup_L. by rewrite Hpk.
Qed.

Lemma destroy_effects_witness :
  ∃ t,
    tm_tasks Fixtures.db_two !! 2 = Some t ∧
    tm_tasks (set_tasks <[2 := Task.delete 300 Fixtures.report]> Fixtures.db_two)
      = <[2 := Task.delete 300 t]> (tm_tasks Fixtures.db_two) ∧
    TaskQuerySet.deleted
      (tm_tasks (set_tasks <[2 := Task.delete 300 Fixtures.report]> Fixtures.db_two))
      !! 2 = Some (Task.delete 300 t) ∧
    TaskQuerySet.not_deleted
      (tm_tasks (set_tasks <[2 := Task.delete 300 Fixtures.report]> Fixtures.db_two))
      !! 2 = None ∧
    dom (tm_tasks (set_tasks <[2 := Task.delete 300 Fixtures.report]> Fixtures.db_two))
      = dom (tm_tasks Fixtures.db_two) ∧
    celery (set_tasks <[2 := Task.delete 300 Fixtures.report]> Fixtures.db_two)
      = celery Fixtures.db_two ∧
    outbox (set_tasks <[2 := Task.delete 300 Fixtures.report]> Fixtures.db_two)
      = outbox Fixtures.db_two ∧
    auth_user (set_tasks <[2 := Task.delete 300 Fixtures.report]> Fixtures.db_two)
      = auth_user Fixtures.db_two ∧
    tm_tasks_id_seq (set_tasks <[2 := Task.delete 300 Fixtures.report]> Fixtures.db_two)
      = tm_tasks_id_seq Fixtures.db_two ∧
    Task.delete 300 t =
      Task.mk (Task.id t) (Task.title t) (Task.description t) (Task.status t)
        (Task.owner t) (Task.assignee t) (Task.due_date t) (Task.created_at t)
        300 true (Some 300).
Proof.
  apply (destroy_effects 300 Fixtures.alice 2 Fixtures.db_two).
  - apply decide_well_keyed. vm_compute. reflexivity.
  - vm_compute. reflexivity.
Defined.

(** ** Stripping *)

Lemma append_cons c s t : String c s +:+ t = String c (s +:+ t).
Proof. reflexivity. Qed.

Lemma append_empty_r s : s +:+ EmptyString = s.
Proof. induction s as [|c s IH]; [done|]. by rewrite append_cons, IH. Qed.

Lemma append_assoc a b c : (a +:+ b) +:+ c = a +:+ (b +:+ c).
Proof. induction a as [|d a IH]; [done|]. by rewrite !append_cons, IH. Qed.

Lemma rev_app_append s acc :
  String.rev_app s acc = String.rev s +:+ acc.
Proof.
  unfold String.rev. revert acc. induction s as [|c s IH]; intros acc; [done|].
  change (String.rev_app s (String c acc)
          = String.rev_app s (String c EmptyString) +:+ acc).
  by rewrite (IH (String c EmptyString)), (IH (String c acc)), append_assoc.
Qed.

Lemma rev_cons c s : String.rev (String c s) = String.rev s +:+ String c EmptyString.
Proof. unfold String.rev at 1. apply (rev_app_append s (String c EmptyString)). Qed.

Lemma rev_append s1 s2 : String.rev (s1 +:+ s2) = String.rev s2 +:+ String.rev s1.
Proof.
  induction s1 as [|c s1 IH].
  - change (String.rev s2 = String.rev s2 +:+ EmptyString). by rewrite append_empty_r.
  - by rewrite append_cons, !rev_cons, IH, append_assoc.
Qed.

Lemma rev_involutive s : String.rev (String.rev s) = s.
Proof.
  induction s as [|c s IH]; [done|]. by rewrite rev_cons, rev_append, IH.
Qed.

Lemma rev_empty s : String.rev s = EmptyString → s = EmptyString.
Proof. intros H. by rewrite <-(rev_involutive s), H. Qed.









(** ** Rejected payloads *)





(** ** List *)

Lemma compare_null_first_antisym a b :
  compare_null_first b a = CompOpp (compare_null_first a b).
Proof. destruct a, b; simpl; try done. apply Z.compare_antisym. Qed.

Lemma compare_field_antisym f t1 t2 :
  compare_field f t2 t1 = CompOpp (compare_field f t1 t2).
Proof.
  destruct f; simpl; [apply compare_null_first_antisym|apply Z.compare_antisym..].
Qed.

Lemma compare_terms_antisym terms t1 t2 :
  compare_terms terms t2 t1 = CompOpp (compare_terms terms t1 t2).
Proof.
  induction terms as [|[desc f] terms IH]; simpl; [done|].
  rewrite (compare_field_antisym f t1 t2).
  destruct desc, (compare_field f t1 t2); simpl; done.
Qed.

Lemma ordered_total terms : Total (ordered terms).
Proof.
  intros t1 t2. unfold ordered. rewrite (compare_terms_antisym terms t1 t2).
  destruct (compare_terms terms t1 t2); simpl; auto.
Qed.

Lemma exact_lookup_iff {A} `{EqDecision A} (p : option A) (col : Task → A)
    (q : gmap Z Task) pk t :
  TaskListCreateView.exact p col q !! pk = Some t ↔
    q !! pk = Some t ∧ ∀ v, p = Some v → col t = v.
Proof.
  unfold TaskListCreateView.exact. destruct p as [v|].
  - rewrite map_lookup_filter_Some. simpl. split.
    + intros [? <-]. split; [done|]. by intros ? [= <-].
    + intros [? H']. split; [done|]. by apply H'.
  - split; [intros ?; split; [done|]; by intros ? [=]|by intros [? _]].
Qed.

Lemma Sorted_weaken {A} (R R' : relation A) l :
  (∀ x y, R x y → R' x y) → Sorted R l → Sorted R' l.
Proof.
  intros HR. induction 1 as [|x l _ IH Hhd]; constructor; [done|].
  destruct Hhd; constructor. by apply HR.
Qed.

(** A List that answers returns exactly the stored rows that are not
    deleted and match every filter of the query, whoever asks; they come
    sorted by the requested ordering, by [created_at] from latest to
    earliest when none is requested, and the request changes nothing. *)
Theorem list_exact user q db ts db' :
  TaskListCreateView.list user q db = Ok ts db' →
  db' = db ∧
  (∀ t, t ∈ ts ↔
     ∃ pk, tm_tasks db !! pk = Some t ∧ Task.is_deleted t = false ∧ matches q t) ∧
  Sorted (ordered (effective_ordering q)) ts ∧
  (TaskListCreateView.ordering q = [] →
   StronglySorted (λ t1 t2, Task.created_at t2 ≤ Task.created_at t1) ts) ∧
  (∀ user', TaskListCreateView.list user' q db = Ok ts db).
Proof.
  unfold TaskListCreateView.list, TaskListCreateView.get_queryset,
    TaskListCreateView.django_filter_backend. unfold_m.
  destruct (_ && _); [|done]. intros [= <- <-].
  set (rows :=
    TaskListCreateView.exact (TaskListCreateView.owner q) Task.owner
      (TaskListCreateView.exact (TaskListCreateView.status q) Task.status
      (TaskListCreateView.exact (Some <$> TaskListCreateView.assignee q) Task.assignee
      (TaskListCreateView.exact (Some <$> TaskListCreateView.due_date q) Task.due_date
      (TaskQuerySet.not_deleted (tm_tasks db)))))).
  assert (TaskListCreateView.ordering_filter q rows
          = order_by (effective_ordering q) rows) as ->.
  { unfold TaskListCreateView.ordering_filter, effective_ordering.
    by destruct (TaskListCreateView.ordering q). }
  split_and!; try done.
  - intros t. rewrite order_by_elem. unfold rows, matches.
    split.
    + intros [pk H]. exists pk. revert H.
      rewrite !exact_lookup_iff, lookup_not_deleted.
      destruct (tm_tasks db !! pk) as [t'|]; [|naive_solver].
      destruct (Task.is_deleted t') eqn:Hd; [naive_solver|].
      intros ((((Ht & H4) & H3) & H2) & H1). injection Ht as ->.
      split_and!; try done.
      * intros v E. apply H3. by rewrite E.
      * intros v E. apply H4. by rewrite E.
    + intros (pk & Hpk & Hd & H1 & H2 & H3 & H4). exists pk.
      rewrite !exact_lookup_iff, lookup_not_deleted, Hpk, Hd.
      split_and!; try done.
      * intros v E. destruct (TaskListCreateView.due_date q); [|done].
        injection E as <-. by apply H4.
      * intros v E. destruct (TaskListCreateView.assignee q); [|done].
        injection E as <-. by apply H3.
  - pose proof (ordered_total (effective_ordering q)). by apply Sorted_merge_sort.
  - intros E. unfold effective_ordering. rewrite E.
    apply Sorted_StronglySorted.
    + intros t1 t2 t3. lia.
    + pose proof (ordered_total Meta_ordering).
      eapply Sorted_weaken; [|by apply (Sorted_merge_sort (ordered Meta_ordering))].
      intros t1 t2. unfold ordered, Meta_ordering. simpl.
      rewrite <-Z.compare_antisym.
      destruct (Task.created_at t2 ?= Task.created_at t1) eqn:C; try done;
        intros _.
      * apply Z.compare_eq in C. by rewrite C.
      * apply Z.compare_lt_iff in C. by apply Z.lt_le_incl.
Qed.

Lemma list_exact_witness :
  let ts := [Fixtures.due_in_an_hour; Fixtures.overdue] in
  Fixtures.db_reminders = Fixtures.db_reminders ∧
  (∀ t, t ∈ ts ↔
     ∃ pk, tm_tasks Fixtures.db_reminders !! pk = Some t ∧
           Task.is_deleted t = false ∧ matches Fixtures.no_query t) ∧
  Sorted (ordered (effective_ordering Fixtures.no_query)) ts ∧
  (TaskListCreateView.ordering Fixtures.no_query = [] →
   StronglySorted (λ t1 t2, Task.created_at t2 ≤ Task.created_at t1) ts) ∧
  (∀ user', TaskListCreateView.list user' Fixtures.no_query Fixtures.db_reminders
            = Ok ts Fixtures.db_reminders).
Proof.
  intros ts.
  apply (list_exact Fixtures.bob Fixtures.no_query Fixtures.db_reminders ts).
  vm_compute. reflexivity.
Defined.

(** ** The notification job *)

Lemma handle_jobs_stored now user r db :
  jobs_stored db → jobs_stored (handle now user r db).
Proof.
  intros Hj.
  assert (∀ k x (db' : DB) extra,
            is_Some (<[k := x]> (tm_tasks db) !! k) →
            tm_tasks db' = <[k := x]> (tm_tasks db) →
            celery db' = celery db ++ extra →
            (∀ j, j ∈ extra → j.1 = k ∧
                  (j.2 = "assigned"%string ∨ j.2 = "updated"%string)) →
            jobs_stored db') as Hins.
  { intros k x db' extra _ Ht Hc Hex task_id action. rewrite Hc, Ht.
    intros [Hin|Hin]%elem_of_app.
    - destruct (Hj _ _ Hin) as [[t Ht'] Ha]. split; [|done].
      rewrite lookup_insert. case_decide; by eauto.
    - destruct (Hex _ Hin) as [Hk Ha]. simpl in *. subst k.
      split; [|done]. rewrite lookup_insert_eq. by eauto. }
  destruct r as [q|data|pk|pk partial data|pk]; simpl.
  - by rewrite list_state.
  - rewrite create_eq. destruct (TaskSerializer.run_validation _ _ _) as [v|]; [|done].
    cbv zeta. destruct (tm_tasks db !! _) eqn:Hpk; [done|].
    destruct (Task.assignee _); simpl.
    + eapply (Hins _ _ _ [_]); [by rewrite lookup_insert_eq|done|done|].
      intros j ->%list_elem_of_singleton. by auto.
    + eapply (Hins _ _ _ []); [by rewrite lookup_insert_eq|done|
        by rewrite app_nil_r|]. by intros j ?%elem_of_nil.
  - by rewrite retrieve_state.
  - rewrite update_eq. destruct (tm_tasks db !! pk) as [t|] eqn:Hpk; [|done].
    destruct (Task.is_deleted t); [done|].
    destruct (TaskSerializer.run_validation _ _ _) as [v|]; [|done].
    destruct (_ && _); [done|]. cbv zeta.
    destruct (Task.assignee (merged now t v)), (Task.assignee t);
      try destruct (bool_decide _); simpl.
    1: eapply (Hins _ _ _ [_; _]);
         [by rewrite lookup_insert_eq|done|by simpl; rewrite <-(assoc_L (++))|].
    2-5: eapply (Hins _ _ _ [_]); [by rewrite lookup_insert_eq|done|done|].
    all: intros j Hin; set_solver.
  - rewrite destroy_eq. destruct (tm_tasks db !! pk) as [t|] eqn:Hpk; [|done].
    destruct (Task.is_deleted t); [done|].
    destruct (_ && _); [done|]. simpl.
    eapply (Hins _ _ _ []); [by rewrite lookup_insert_eq|done|
      by rewrite app_nil_r|]. by intros j ?%elem_of_nil.
Qed.

Lemma exec_jobs_stored e db : jobs_stored db → jobs_stored (exec e db).
Proof.
  intros Hj. destruct e as [now user r| |now]; simpl.
  - by apply handle_jobs_stored.
  - destruct (celery db) as [|[task_id action] rest] eqn:Hc; [done|].
    destruct (send_task_notification_outbox task_id action
                (set_celery (λ _, rest) db)) as (_&Ht&_&Hq&_).
    intros k a. rewrite Ht, Hq. simpl. intros Hin. apply Hj.
    rewrite Hc. by apply list_elem_of_further.
  - destruct (send_due_date_reminder_outbox now db) as (_&Ht&_&Hq&_).
    intros k a. rewrite Ht, Hq. apply Hj.
Qed.

Lemma reachable_jobs_stored db : reachable db → jobs_stored db.
Proof.
  intros (users & sender & es & ->).
  assert (∀ db, jobs_stored db → jobs_stored (run es db)) as Hrun.
  { induction es as [|e es IH]; intros db H; [done|]. simpl.
    by apply IH, exec_jobs_stored. }
  apply Hrun. intros k a. simpl. by intros ?%elem_of_nil.
Qed.

(** In every state reached from a fresh installation the job at the head of
    the queue names a stored task and carries "assigned" or "updated".  Run
    by the worker, it leaves the queue without it and either sends exactly
    one mail, to the address of the user who is the task's assignee when
    the job runs, or, when the task has no assignee then, raises
    AttributeError and sends nothing.  It never fails for a missing task or
    user. *)
Theorem worker_outcome db task_id action rest :
  reachable db → celery db = (task_id, action) :: rest →
  ∃ t, tm_tasks db !! task_id = Some t ∧
    (action = "assigned"%string ∨ action = "updated"%string) ∧
    match Task.assignee t with
    | Some uid =>
        ∃ u, auth_user db !! uid = Some u ∧
          exec Worker db =
            set_outbox (λ o, o ++ [notification_mail (DEFAULT_FROM_EMAIL db) t
                                     action (User.email u)])
              (set_celery (λ _, rest) db)
    | None =>
        raised (notifications.send_task_notification task_id action
                  (set_celery (λ _, rest) db)) = Some AttributeError ∧
        exec Worker db = set_celery (λ _, rest) db
    end.
Proof.
  intros Hreach Hc.
  destruct (reachable_jobs_stored db Hreach task_id action) as [[t Ht] Ha].
  { rewrite Hc. apply list_elem_of_here. }
  exists t. split_and!; try done.
  pose proof (reachable_rows_valid db Hreach task_id t Ht) as (_&_&_&_&_&_&Hu).
  simpl. rewrite Hc.
  destruct (Task.assignee t) as [uid|] eqn:Hass.
  - destruct Hu as [u Hu]. exists u. split; [done|].
    by rewrite (send_task_notification_eq task_id action _ t uid u).
  - unfold notifications.send_task_notification, notifications.assignee_email.
    unfold_m. simpl. by rewrite Ht, Hass.
Qed.

Lemma worker_outcome_witness :
  let db :=
    run [Http 300 Fixtures.root (Update 2 true Fixtures.patch_assign_carol)]
      (run [ Http 100 Fixtures.alice (Create Fixtures.post_doc);
             Http 110 Fixtures.alice (Create Fixtures.post_for_bob);
             Worker ] Fixtures.db_fresh) in
  ∃ t, tm_tasks db !! 2 = Some t ∧
    ("updated" = "assigned" ∨ "updated" = "updated")%string ∧
    match Task.assignee t with
    | Some uid =>
        ∃ u, auth_user db !! uid = Some u ∧
          exec Worker db =
            set_outbox (λ o, o ++ [notification_mail (DEFAULT_FROM_EMAIL db) t
                                     "updated" (User.email u)])
              (set_celery (λ _, [(2, "assigned"%string)]) db)
    | None =>
        raised (notifications.send_task_notification 2 "updated"
                  (set_celery (λ _, [(2, "assigned"%string)]) db))
          = Some AttributeError ∧
        exec Worker db = set_celery (λ _, [(2, "assigned"%string)]) db
    end.
Proof.
  intros db.
  apply (worker_outcome db 2 "updated" [(2, "assigned"%string)]).
  - exists Fixtures.users, "noreply@example.com"%string.
    exists [ Http 100 Fixtures.alice (Create Fixtures.post_doc);
             Http 110 Fixtures.alice (Create Fixtures.post_for_bob);
             Worker;
             Http 300 Fixtures.root (Update 2 true Fixtures.patch_assign_carol) ].
    reflexivity.
  - vm_compute. reflexivity.
Defined.

(** A successful Update that leaves the task without assignee queues one
    "updated" job, and that job, run on the state the Update leaves, raises
    AttributeError and sends nothing. *)
Theorem update_unassigned_job_faults now user pk partial data db t' db' :
  well_keyed db →
  TaskDetailView.update now user pk partial data db = Ok t' db' →
  Task.assignee t' = None →
  celery db' = celery db ++ [(pk, "updated"%string)] ∧
  notifications.send_task_notification pk "updated" db' = Raise AttributeError db'.
Proof.
  intros Hk Hu Hnone.
  destruct (update_written _ _ _ _ _ _ _ _ Hk Hu) as (Hr & _).
  destruct (update_ok _ _ _ _ _ _ _ _ Hu)
    as (t & v & Hpk & _ & _ & _ & _ & _ & Hq).
  rewrite (Hk _ _ Hpk), Hnone in Hq. split; [done|].
  specialize (Hr user). rewrite retrieve_eq in Hr.
  destruct (tm_tasks db' !! pk) as [t1|] eqn:H1; [|done].
  destruct (Task.is_deleted t1); [done|]. injection Hr as ->.
  unfold notifications.send_task_notification, notifications.assignee_email.
  unfold_m. by rewrite H1, Hnone.
Qed.

Lemma update_unassigned_job_faults_witness :
  ∃ db',
    celery db' = celery Fixtures.db_doc ++ [(1, "updated"%string)] ∧
    notifications.send_task_notification 1 "updated" db' = Raise AttributeError db'.
Proof.
  eexists.
  apply (update_unassigned_job_faults 200 Fixtures.alice 1 true
           Fixtures.patch_completed Fixtures.db_doc
           (Task.mk 1 "Doc" "x" "completed" 1 None None 100 200 false None)).
  - apply decide_well_keyed. vm_compute. reflexivity.
  - vm_compute. reflexivity.
  - reflexivity.
Defined.

(** ** The reminder job *)

Lemma remind_eq t db :
  remind t db =
    match Task.assignee t with
    | None => Raise AttributeError db
    | Some uid =>
        match auth_user db !! uid with
        | Some u =>
            Ok tt (set_outbox (λ o, o ++ [reminder_mail (DEFAULT_FROM_EMAIL db) t
                                            (User.email u)]) db)
        | None => Raise DoesNotExist db
        end
    end.
Proof.
  unfold remind, notifications.assignee_email, notifications.send_mail. unfold_m.
  destruct (Task.assignee t) as [uid|]; [|done].
  by destruct (auth_user db !! uid).
Qed.

Lemma set_outbox_app l1 l2 db :
  set_outbox (λ o, o ++ l2) (set_outbox (λ o, o ++ l1) db)
  = set_outbox (λ o, o ++ l1 ++ l2) db.
Proof. unfold set_outbox. simpl. by rewrite <-(assoc_L (++)). Qed.

Lemma set_outbox_nil db : set_outbox (λ o, o ++ []) db = db.
Proof. unfold set_outbox. rewrite app_nil_r. by destruct db. Qed.

Lemma reminder_mails_set_outbox f db l :
  reminder_mails (set_outbox f db) l = reminder_mails db l.
Proof. done. Qed.

Lemma for_each_remind l1 rest db :
  (∀ t, t ∈ l1 → is_Some (assignee_address (auth_user db) t)) →
  notifications.for_each (l1 ++ rest) remind db =
    notifications.for_each rest remind
      (set_outbox (λ o, o ++ reminder_mails db l1) db).
Proof.
  revert db. induction l1 as [|t l1 IH]; intros db Hall.
  - simpl. by rewrite set_outbox_nil.
  - simpl. unfold mbind at 1, M_bind at 1. rewrite remind_eq.
    destruct (Hall t) as [addr Haddr]; [apply list_elem_of_here|].
    unfold reminder_mails. simpl. rewrite Haddr. simpl.
    unfold assignee_address in Haddr.
    destruct (Task.assignee t) as [uid|]; [|done]. simpl in Haddr.
    destruct (auth_user db !! uid) as [u|]; [|done]. injection Haddr as <-.
    rewrite IH.
    + by rewrite reminder_mails_set_outbox, set_outbox_app.
    + intros t' Hin. apply Hall. by apply list_elem_of_further.
Qed.

Lemma reminder_mails_length db l :
  (∀ t, t ∈ l → is_Some (assignee_address (auth_user db) t)) →
  length (reminder_mails db l) = length l.
Proof.
  unfold reminder_mails. induction l as [|t l IH]; intros Hall; [done|].
  simpl. destruct (Hall t) as [a ->]; [apply list_elem_of_here|]. simpl.
  f_equal. apply IH. intros t' Hin. apply Hall. by apply list_elem_of_further.
Qed.

(** The reminder job selects the stored rows whose [due_date] is set and at
    most a day after [now] and whose status is "pending"; [is_deleted] is
    not consulted and there is no lower bound.  It goes through them from
    the latest created to the earliest.  When the assignee of each resolves
    to an address, it sends one mail per selected row, in that order, to
    that address, and changes nothing else.  At the first selected row
    without assignee it raises AttributeError: the rows before it have
    their mail, that row and the rows after it have none. *)
Theorem reminder_outcome now db :
  ∃ selected,
    (∀ t, t ∈ selected ↔
       ∃ pk d, tm_tasks db !! pk = Some t ∧ Task.due_date t = Some d ∧
               d ≤ now + 86400000000 ∧ Task.status t = "pending"%string) ∧
    StronglySorted (λ t1 t2, Task.created_at t2 ≤ Task.created_at t1) selected ∧
    ((∀ t, t ∈ selected → is_Some (assignee_address (auth_user db) t)) →
     notifications.send_due_date_reminder now db =
       Ok tt (set_outbox (λ o, o ++ reminder_mails db selected) db) ∧
     length (reminder_mails db selected) = length selected) ∧
    (∀ l1 t l2,
       selected = l1 ++ t :: l2 →
       (∀ t', t' ∈ l1 → is_Some (assignee_address (auth_user db) t')) →
       Task.assignee t = None →
       notifications.send_due_date_reminder now db =
         Raise AttributeError (set_outbox (λ o, o ++ reminder_mails db l1) db)).
Proof.
  set (selected :=
    order_by Meta_ordering
      (filter (λ kv : Z * Task,
         notifications.due_soon (now + notifications.timedelta_days 1) kv.2 = true)
         (tm_tasks db))).
  assert (notifications.send_due_date_reminder now db
          = notifications.for_each selected remind db) as Hjob by done.
  exists selected. split_and!.
  - intros t. unfold selected. rewrite order_by_elem. split.
    + intros [pk [Hpk Hdue]%map_lookup_filter_Some]. simpl in Hdue.
      unfold notifications.due_soon in Hdue.
      destruct (Task.due_date t) as [d|] eqn:Hd; [|done].
      apply andb_true_iff in Hdue as [Hle Hst].
      apply bool_decide_eq_true in Hst. apply Z.leb_le in Hle.
      exists pk, d. by split_and!.
    + intros (pk & d & Hpk & Hd & Hle & Hst). exists pk.
      apply map_lookup_filter_Some. split; [done|]. simpl.
      unfold notifications.due_soon. rewrite Hd, Hst.
      apply andb_true_iff. split; [by apply Z.leb_le|by apply bool_decide_eq_true].
  - apply Sorted_StronglySorted.
    + intros t1 t2 t3 H12 H23. by etrans.
    + pose proof (ordered_total Meta_ordering).
      eapply Sorted_weaken; [|by apply (Sorted_merge_sort (ordered Meta_ordering))].
      intros t1 t2. unfold ordered, Meta_ordering. simpl.
      rewrite <-Z.compare_antisym.
      destruct (Task.created_at t2 ?= Task.created_at t1) eqn:C; try done;
        intros _.
      * apply Z.compare_eq in C. by rewrite C.
      * apply Z.compare_lt_iff in C. by apply Z.lt_le_incl.
  - intros Hall. split.
    + rewrite Hjob. rewrite <-(app_nil_r selected) at 1.
      by rewrite for_each_remind.
    + by apply reminder_mails_length.
  - intros l1 t l2 Hsel Hall Hnone. rewrite Hjob, Hsel.
    rewrite for_each_remind by done. simpl.
    unfold mbind at 1, M_bind at 1. by rewrite remind_eq, Hnone.
Qed.

Lemma reminder_outcome_witness :
  ∃ selected,
    notifications.send_due_date_reminder (10 * Fixtures.day) Fixtures.db_reminders =
      Ok tt (set_outbox (λ o, o ++ reminder_mails Fixtures.db_reminders selected)
               Fixtures.db_reminders) ∧
    length (reminder_mails Fixtures.db_reminders selected) = length selected.
Proof.
  destruct (reminder_outcome (10 * Fixtures.day) Fixtures.db_reminders)
    as (selected & Hsel & _ & Hsend & _).
  exists selected. apply Hsend. intros t [pk (d & Hpk & _)]%Hsel.
  unfold Fixtures.db_reminders in Hpk. simpl in Hpk.
  rewrite !lookup_insert in Hpk.
  repeat case_decide; simplify_eq; try (by eexists); by rewrite lookup_empty in Hpk.
Defined.

Lemma querysets_partition_witness :
  TaskQuerySet.not_deleted (tm_tasks Fixtures.db_reminders) !! 2 = None ∧
  TaskQuerySet.deleted (tm_tasks Fixtures.db_reminders) !! 2
    = Some Fixtures.deleted_due_in_an_hour.
Proof.
  destruct (querysets_partition (tm_tasks Fixtures.db_reminders)) as (_ & _ & H).
  split.
  - destruct (TaskQuerySet.not_deleted (tm_tasks Fixtures.db_reminders) !! 2)
      as [t|] eqn:E; [|done].
    apply (proj1 (H 2 t)) in E as [E1 E2]. vm_compute in E1.
    injection E1 as <-. discriminate.
  - apply (proj2 (H 2 Fixtures.deleted_due_in_an_hour)). split; reflexivity.
Defined.

